(** * Occupancy grid node of cartographer_ros

    A shallow embedding of [occupancy_grid_node_main.cc]: the submap slice
    cache reconciled by [Node::HandleSubmapList], the periodic
    [Node::DrawAndPublish] and the pixel-to-cell conversion of
    [Node::PublishOccupancyGrid], with the properties their specification
    states about them. *)

From Stdlib Require Import ZArith QArith Qround Lia List Floats.SpecFloat.
From stdpp Require Import gmap strings list fin_maps.

Set Warnings "-clear-no-such-hyp".

Local Open Scope Z_scope.

(** ** IEEE 754 arithmetic

    [double] is binary64 and [float] (the scalar of [Eigen::Array2f]) is
    binary32.  Both are values of [spec_float]; every operation rounds to
    nearest even in its own format, as the hardware does. *)
Module IEEE.

Definition prec64 : Z := 53.
Definition emax64 : Z := 1024.
Definition prec32 : Z := 24.
Definition emax32 : Z := 128.

(** Conversion of an [int] to [double] and to [float]. *)
Definition double_of_int (n : Z) : spec_float :=
  binary_normalize prec64 emax64 n 0 false.
Definition float_of_int (n : Z) : spec_float :=
  binary_normalize prec32 emax32 n 0 false.

(** A decimal literal [m * 10^(-d)] read as a [double]. *)
Definition double_of_decimal (m : Z) (d : Z) : spec_float :=
  SFdiv prec64 emax64 (double_of_int m) (double_of_int (10 ^ d)).

Definition dmul := SFmul prec64 emax64.
Definition ddiv := SFdiv prec64 emax64.
Definition dsub := SFsub prec64 emax64.
Definition fadd := SFadd prec32 emax32.
Definition fneg := SFopp.

(** Widening a [float] to [double] changes no value; the result carries
    the canonical binary64 mantissa and exponent. *)
Definition double_of_float (x : spec_float) : spec_float :=
  match x with
  | S754_finite s m e => binary_round prec64 emax64 s m e
  | _ => x
  end.

(** Narrowing a [double] to [float] rounds to nearest even in binary32. *)
Definition float_of_double (x : spec_float) : spec_float :=
  match x with
  | S754_finite s m e => binary_round prec32 emax32 s m e
  | _ => x
  end.

(** [std::lround]: the nearest integer, halfway cases away from zero.
    The standard leaves infinities and NaN unspecified; they read 0 here. *)
Definition lround (x : spec_float) : Z :=
  match x with
  | S754_finite s m e =>
      let mag :=
        if 0 <=? e then Z.pos m * 2 ^ e
        else (2 * Z.pos m + 2 ^ (- e)) / (2 * 2 ^ (- e)) in
      if s then - mag else mag
  | _ => 0
  end.

(** Conversion of a [long] to [int]: two's complement wrap-around. *)
Definition int_of_long (n : Z) : Z :=
  (n + 2 ^ 31) mod 2 ^ 32 - 2 ^ 31.

End IEEE.

(** [cartographer::common::RoundToInt], which is [std::lround] narrowed to
    [int]. *)
Definition RoundToInt (x : spec_float) : Z := IEEE.int_of_long (IEEE.lround x).

(** ** The quantizer of [PublishOccupancyGrid] *)

(** [const unsigned char color = packed >> 16;] *)
Definition color_of (packed : Z) : Z := Z.shiftr packed 16 mod 256.
(** [const unsigned char observed = packed >> 8;] *)
Definition observed_of (packed : Z) : Z := Z.shiftr packed 8 mod 256.

(** [RoundToInt((1. - color / 255.) * 100.)] in binary64. *)
Definition occupied_percent (color : Z) : Z :=
  RoundToInt
    (IEEE.dmul
       (IEEE.dsub (IEEE.double_of_int 1)
                  (IEEE.ddiv (IEEE.double_of_int color) (IEEE.double_of_int 255)))
       (IEEE.double_of_int 100)).

(** The value computed for one pixel, before the two [CHECK]s. *)
Definition cell_value (packed : Z) : Z :=
  if observed_of packed =? 0 then -1 else occupied_percent (color_of packed).

(** The value together with [CHECK_LE(-1, value)] and
    [CHECK_GE(100, value)]: [None] is the fatal abort. *)
Definition checked_cell_value (packed : Z) : option Z :=
  let value := cell_value packed in
  if (-1 <=? value) && (value <=? 100) then Some value else None.


(** ** Data model *)

(** [cartographer::mapping::SubmapId]: trajectory id, then submap index. *)
Definition SubmapId : Type := Z * Z.

(** [rclcpp::Time] and the stamp of a message header. *)
Record Time := { sec : Z; nanosec : Z }.

Record Vector3d := { vec_x : spec_float; vec_y : spec_float; vec_z : spec_float }.
Record Quaterniond :=
  { quat_w : spec_float; quat_x : spec_float;
    quat_y : spec_float; quat_z : spec_float }.

(** [cartographer::transform::Rigid3d]. *)
Record Rigid3d := { translation : Vector3d; rotation : Quaterniond }.

(** [geometry_msgs::msg::Pose]. *)
Record PoseMsg := { position : Vector3d; orientation : Quaterniond }.

(** A cairo image surface of format ARGB32 whose stride is four times its
    width: the pixels as [uint32_t], row after row. *)
Record CairoSurface :=
  { surface_width : Z; surface_height : Z; surface_data : list Z }.

(** [cartographer::io::SubmapSlice].  [surface] is a [unique_ptr]: [None] is
    the null pointer. *)
Module SubmapSlice.
Record t :=
  { width : Z;
    height : Z;
    version : Z;
    resolution : spec_float;
    slice_pose : Rigid3d;
    surface : option CairoSurface;
    cairo_data : list Z;
    pose : Rigid3d;
    metadata_version : Z }.
End SubmapSlice.

(** [cartographer_ros_msgs::msg::SubmapEntry]. *)
Module SubmapEntry.
Record t :=
  { trajectory_id : Z;
    submap_index : Z;
    submap_version : Z;
    pose : PoseMsg }.
End SubmapEntry.

(** [cartographer_ros_msgs::msg::SubmapList] with its header. *)
Module SubmapList.
Record t :=
  { stamp : Time;
    frame_id : string;
    submap : list SubmapEntry.t }.
End SubmapList.

(** [cartographer::io::SubmapTexture] and [SubmapTextures], the response of
    the submap query service. *)
Module SubmapTexture.
Record t :=
  { intensity : list Z;
    alpha : list Z;
    width : Z;
    height : Z;
    resolution : spec_float;
    slice_pose : Rigid3d }.
End SubmapTexture.

Module SubmapTextures.
Record t :=
  { version : Z;
    textures : list SubmapTexture.t }.
End SubmapTextures.

(** [cartographer::io::PaintSubmapSlicesResult]; [origin] is an
    [Eigen::Array2f]. *)
Module PaintSubmapSlicesResult.
Record t :=
  { surface : CairoSurface;
    origin : spec_float * spec_float }.
End PaintSubmapSlicesResult.

(** [nav_msgs::msg::OccupancyGrid]. *)
Module OccupancyGrid.
Record t :=
  { header_stamp : Time;
    header_frame_id : string;
    info_map_load_time : Time;
    info_resolution : spec_float;
    info_width : Z;
    info_height : Z;
    origin_position : Vector3d;
    origin_orientation : Quaterniond;
    data : list Z }.
End OccupancyGrid.

(** The members of [Node] that the handlers read and write. *)
Record Node :=
  { resolution_ : spec_float;
    submap_slices_ : gmap SubmapId SubmapSlice.t;
    last_frame_id_ : string;
    last_timestamp_ : Time }.

(** What a handler does to the outside, in program order. *)
Inductive Event :=
| EvLock
| EvUnlock
| EvFetch (id : SubmapId) (response : option SubmapTextures.t)
| EvPaint (slices : gmap SubmapId SubmapSlice.t) (resolution : spec_float)
| EvPublish (grid : OccupancyGrid.t).

(** Assignments to single members of a [SubmapSlice]. *)
Module SliceSet.
Import SubmapSlice.
Definition set_pose (p : Rigid3d) (s : t) : t :=
  {| width := width s; height := height s; version := version s;
     resolution := resolution s; slice_pose := slice_pose s;
     surface := surface s; cairo_data := cairo_data s;
     pose := p; metadata_version := metadata_version s |}.
Definition set_metadata_version (v : Z) (s : t) : t :=
  {| width := width s; height := height s; version := version s;
     resolution := resolution s; slice_pose := slice_pose s;
     surface := surface s; cairo_data := cairo_data s;
     pose := pose s; metadata_version := v |}.
Definition set_version (v : Z) (s : t) : t :=
  {| width := width s; height := height s; version := v;
     resolution := resolution s; slice_pose := slice_pose s;
     surface := surface s; cairo_data := cairo_data s;
     pose := pose s; metadata_version := metadata_version s |}.
Definition set_width (w : Z) (s : t) : t :=
  {| width := w; height := height s; version := version s;
     resolution := resolution s; slice_pose := slice_pose s;
     surface := surface s; cairo_data := cairo_data s;
     pose := pose s; metadata_version := metadata_version s |}.
Definition set_height (h : Z) (s : t) : t :=
  {| width := width s; height := h; version := version s;
     resolution := resolution s; slice_pose := slice_pose s;
     surface := surface s; cairo_data := cairo_data s;
     pose := pose s; metadata_version := metadata_version s |}.
Definition set_slice_pose (p : Rigid3d) (s : t) : t :=
  {| width := width s; height := height s; version := version s;
     resolution := resolution s; slice_pose := p;
     surface := surface s; cairo_data := cairo_data s;
     pose := pose s; metadata_version := metadata_version s |}.
Definition set_resolution (r : spec_float) (s : t) : t :=
  {| width := width s; height := height s; version := version s;
     resolution := r; slice_pose := slice_pose s;
     surface := surface s; cairo_data := cairo_data s;
     pose := pose s; metadata_version := metadata_version s |}.
Definition set_cairo_data (d : list Z) (s : t) : t :=
  {| width := width s; height := height s; version := version s;
     resolution := resolution s; slice_pose := slice_pose s;
     surface := surface s; cairo_data := d;
     pose := pose s; metadata_version := metadata_version s |}.
Definition set_surface (p : option CairoSurface) (s : t) : t :=
  {| width := width s; height := height s; version := version s;
     resolution := resolution s; slice_pose := slice_pose s;
     surface := p; cairo_data := cairo_data s;
     pose := pose s; metadata_version := metadata_version s |}.
End SliceSet.

(** The members of a slice that hold the fetched texture: buffer, texture
    version, dimensions, slice pose and resolution. *)
Record Raster :=
  { raster_surface : option CairoSurface;
    raster_cairo_data : list Z;
    raster_version : Z;
    raster_width : Z;
    raster_height : Z;
    raster_slice_pose : Rigid3d;
    raster_resolution : spec_float }.

Definition raster_of (s : SubmapSlice.t) : Raster :=
  {| raster_surface := SubmapSlice.surface s;
     raster_cairo_data := SubmapSlice.cairo_data s;
     raster_version := SubmapSlice.version s;
     raster_width := SubmapSlice.width s;
     raster_height := SubmapSlice.height s;
     raster_slice_pose := SubmapSlice.slice_pose s;
     raster_resolution := SubmapSlice.resolution s |}.

(** ** The grid message of [PublishOccupancyGrid] *)

(** Conversion of an [int] to the [int8_t] of the message's [data]. *)
Definition int8_of_int (v : Z) : Z := (v + 128) mod 256 - 128.

(** Conversion of an [int] to the [uint32_t] of [info.width] and
    [info.height]. *)
Definition uint32_of_int (v : Z) : Z := v mod 2 ^ 32.

(** [pixel_data[i]]. *)
Definition pixel_at (pixel_data : list Z) (i : Z) : Z :=
  nth (Z.to_nat i) pixel_data 0.

(** [for (int x = 0; x < width; ++x)] with [remaining] iterations to go;
    [None] when a [CHECK] fails. *)
Fixpoint row_loop (pixel_data : list Z) (width y : Z) (remaining : nat)
    (x : Z) (data : list Z) : option (list Z) :=
  match remaining with
  | O => Some data
  | S remaining' =>
      let packed := pixel_at pixel_data (y * width + x) in
      match checked_cell_value packed with
      | Some value =>
          row_loop pixel_data width y remaining' (x + 1)
                   (data ++ [int8_of_int value])
      | None => None
      end
  end.

(** [for (int y = height - 1; y >= 0; --y)]: [rows] is [y + 1]. *)
Fixpoint rows_loop (pixel_data : list Z) (width : Z) (rows : nat)
    (data : list Z) : option (list Z) :=
  match rows with
  | O => Some data
  | S y =>
      match row_loop pixel_data width (Z.of_nat y) (Z.to_nat width) 0 data with
      | Some data' => rows_loop pixel_data width y data'
      | None => None
      end
  end.

(** The message [PublishOccupancyGrid] builds before it publishes it. *)
Definition occupancy_grid_msg (resolution_ : spec_float) (frame_id : string)
    (time : Time) (origin : spec_float * spec_float)
    (surface : CairoSurface) : option OccupancyGrid.t :=
  let width := surface_width surface in
  let height := surface_height surface in
  let zero := IEEE.double_of_int 0 in
  match rows_loop (surface_data surface) width (Z.to_nat height) [] with
  | Some data =>
      Some
        {| OccupancyGrid.header_stamp := time;
           OccupancyGrid.header_frame_id := frame_id;
           OccupancyGrid.info_map_load_time := time;
           OccupancyGrid.info_resolution := IEEE.float_of_double resolution_;
           OccupancyGrid.info_width := uint32_of_int width;
           OccupancyGrid.info_height := uint32_of_int height;
           OccupancyGrid.origin_position :=
             {| vec_x :=
                  IEEE.dmul (IEEE.double_of_float (IEEE.fneg (fst origin)))
                            resolution_;
                vec_y :=
                  IEEE.dmul
                    (IEEE.double_of_float
                       (IEEE.fadd (IEEE.float_of_int (- height)) (snd origin)))
                    resolution_;
                vec_z := zero |};
           OccupancyGrid.origin_orientation :=
             {| quat_w := IEEE.double_of_int 1;
                quat_x := zero; quat_y := zero; quat_z := zero |};
           OccupancyGrid.data := data |}
  | None => None
  end.

(** ** The handlers *)

(** What lies outside the node: the state of the submap query service
    behind [client_], and the number of subscribers of the topic. *)
Record World (G : Type) := { gateway : G; subscribers : nat }.
Arguments gateway {G} _.
Arguments subscribers {G} _.

(** A handler run: the world it leaves, the events it emitted in order, and
    its result, [None] when a [CHECK] aborted the process. *)
Definition M (G A : Type) : Type := World G -> World G * list Event * option A.

Definition ret {G A} (a : A) : M G A := fun w => (w, [], Some a).

Definition bind {G A B} (m : M G A) (k : A -> M G B) : M G B :=
  fun w =>
    match m w with
    | (w1, ev1, Some a) =>
        match k a w1 with (w2, ev2, r) => (w2, ev1 ++ ev2, r) end
    | (w1, ev1, None) => (w1, ev1, None)
    end.

Definition emit {G} (e : Event) : M G unit := fun w => (w, [e], Some tt).

(** [CHECK(b)]. *)
Definition CHECK {G} (b : bool) : M G unit :=
  fun w => (w, [], if b then Some tt else None).

Definition count_subscribers {G} : M G nat :=
  fun w => (w, [], Some (subscribers w)).

Definition world_of {G A} (r : World G * list Event * option A) : World G :=
  fst (fst r).
Definition events_of {G A} (r : World G * list Event * option A) : list Event :=
  snd (fst r).
Definition result_of {G A} (r : World G * list Event * option A) : option A :=
  snd r.

(** The handlers are written with the bind notations of stdpp:
    [x ← m; k] and [m;; k]. *)
#[global] Instance M_ret {G} : MRet (M G) := fun A a => ret a.
#[global] Instance M_bind {G} : MBind (M G) := fun A B k m => bind m k.

Definition id_of (submap_msg : SubmapEntry.t) : SubmapId :=
  (SubmapEntry.trajectory_id submap_msg, SubmapEntry.submap_index submap_msg).

(** The test that skips the fetch:
    [submap_slice.surface != nullptr &&
     submap_slice.version == submap_msg.submap_version]. *)
Definition texture_is_current (submap_slice : SubmapSlice.t)
    (submap_version : Z) : bool :=
  match SubmapSlice.surface submap_slice with
  | Some _ => SubmapSlice.version submap_slice =? submap_version
  | None => false
  end.

Definition string_empty (s : string) : bool :=
  match s with EmptyString => true | String _ _ => false end.

Section Handlers.
Context {G : Type}.

(** The collaborators declared in headers outside this file. *)
Variable ToRigid3d : PoseMsg -> Rigid3d.
Variable FetchSubmapTextures : SubmapId -> G -> G * option SubmapTextures.t.
Variable DrawTexture :
  list Z -> list Z -> Z -> Z -> list Z -> list Z * option CairoSurface.
Variable PaintSubmapSlices :
  gmap SubmapId SubmapSlice.t -> spec_float -> PaintSubmapSlicesResult.t.

(** Whatever the members without an initializer hold in a new slice. *)
Variable indeterminate : SubmapSlice.t.

(** Modelled from the spec: the default constructor of [SubmapSlice],
    declared in a header that is not part of the sources.  A record is
    created without a buffer; [metadata_version] starts at -1. *)
Definition fresh_slice : SubmapSlice.t :=
  SliceSet.set_surface None
    (SliceSet.set_cairo_data []
       (SliceSet.set_metadata_version (-1) indeterminate)).

(** [submap_slices_[id]]: the slice under [id], created when absent. *)
Definition slice_at (slices : gmap SubmapId SubmapSlice.t) (id : SubmapId)
  : SubmapSlice.t :=
  match slices !! id with
  | Some s => s
  | None => fresh_slice
  end.

Definition fetch (id : SubmapId) : M G (option SubmapTextures.t) :=
  fun w =>
    let '(g, response) := FetchSubmapTextures id (gateway w) in
    ({| gateway := g; subscribers := subscribers w |},
     [EvFetch id response], Some response).

(** The body of [for (const auto& submap_msg : msg->submap)].  The slice
    is written through a reference into the map: every way out of the
    body leaves the slice as assigned so far under [id]. *)
Definition handle_submap_msg (submap_msg : SubmapEntry.t)
    (st : gmap SubmapId SubmapSlice.t * gset SubmapId)
  : M G (gmap SubmapId SubmapSlice.t * gset SubmapId) :=
  let '(slices, submap_ids_to_delete) := st in
  let id := id_of submap_msg in
  let submap_ids_to_delete := submap_ids_to_delete ∖ {[ id ]} in
  let submap_slice := slice_at slices id in
  let submap_slice :=
    SliceSet.set_pose (ToRigid3d (SubmapEntry.pose submap_msg)) submap_slice in
  let submap_slice :=
    SliceSet.set_metadata_version (SubmapEntry.submap_version submap_msg)
                                  submap_slice in
  if texture_is_current submap_slice (SubmapEntry.submap_version submap_msg)
  then ret (<[ id := submap_slice ]> slices, submap_ids_to_delete)
  else
    fetched_textures ← fetch id;
    match fetched_textures with
    | None => ret (<[ id := submap_slice ]> slices, submap_ids_to_delete)
    | Some fetched_textures =>
        match SubmapTextures.textures fetched_textures with
        | [] =>
            CHECK false;;
            ret (<[ id := submap_slice ]> slices, submap_ids_to_delete)
        | fetched_texture :: _ =>
            let submap_slice :=
              SliceSet.set_version (SubmapTextures.version fetched_textures)
                                   submap_slice in
            let submap_slice :=
              SliceSet.set_width (SubmapTexture.width fetched_texture)
                                 submap_slice in
            let submap_slice :=
              SliceSet.set_height (SubmapTexture.height fetched_texture)
                                  submap_slice in
            let submap_slice :=
              SliceSet.set_slice_pose
                (SubmapTexture.slice_pose fetched_texture) submap_slice in
            let submap_slice :=
              SliceSet.set_resolution
                (SubmapTexture.resolution fetched_texture) submap_slice in
            let submap_slice := SliceSet.set_cairo_data [] submap_slice in
            let '(cairo_data, surface) :=
              DrawTexture (SubmapTexture.intensity fetched_texture)
                          (SubmapTexture.alpha fetched_texture)
                          (SubmapTexture.width fetched_texture)
                          (SubmapTexture.height fetched_texture)
                          (SubmapSlice.cairo_data submap_slice) in
            let submap_slice := SliceSet.set_cairo_data cairo_data submap_slice in
            let submap_slice := SliceSet.set_surface surface submap_slice in
            ret (<[ id := submap_slice ]> slices, submap_ids_to_delete)
        end
    end.

Fixpoint for_each_submap (submap : list SubmapEntry.t)
    (st : gmap SubmapId SubmapSlice.t * gset SubmapId)
  : M G (gmap SubmapId SubmapSlice.t * gset SubmapId) :=
  match submap with
  | [] => ret st
  | submap_msg :: rest =>
      st' ← handle_submap_msg submap_msg st;
      for_each_submap rest st'
  end.

(** [for (const auto& id : submap_ids_to_delete) submap_slices_.erase(id)]. *)
Definition erase_all (ids : list SubmapId)
    (slices : gmap SubmapId SubmapSlice.t) : gmap SubmapId SubmapSlice.t :=
  fold_left (fun m id => delete id m) ids slices.

Definition HandleSubmapList (msg : SubmapList.t) (node : Node) : M G Node :=
  emit EvLock;;
  n ← count_subscribers;
  if Nat.eqb n 0 then emit EvUnlock;; ret node
  else
    let submap_ids_to_delete : gset SubmapId := dom (submap_slices_ node) in
    '(slices, submap_ids_to_delete) ←
      for_each_submap (SubmapList.submap msg)
                      (submap_slices_ node, submap_ids_to_delete);
    let slices := erase_all (elements submap_ids_to_delete) slices in
    let node :=
      {| resolution_ := resolution_ node;
         submap_slices_ := slices;
         last_frame_id_ := SubmapList.frame_id msg;
         last_timestamp_ := SubmapList.stamp msg |} in
    emit EvUnlock;;
    ret node.

Definition PublishOccupancyGrid (node : Node) (frame_id : string)
    (time : Time) (origin : spec_float * spec_float)
    (surface : CairoSurface) : M G unit :=
  match occupancy_grid_msg (resolution_ node) frame_id time origin surface with
  | Some occupancy_grid => emit (EvPublish occupancy_grid)
  | None => CHECK false
  end.

Definition DrawAndPublish (node : Node) : M G unit :=
  if Nat.eqb (size (submap_slices_ node)) 0
     || string_empty (last_frame_id_ node)
  then ret tt
  else
    emit EvLock;;
    emit (EvPaint (submap_slices_ node) (resolution_ node));;
    let painted_slices :=
      PaintSubmapSlices (submap_slices_ node) (resolution_ node) in
    PublishOccupancyGrid node (last_frame_id_ node) (last_timestamp_ node)
      (PaintSubmapSlicesResult.origin painted_slices)
      (PaintSubmapSlicesResult.surface painted_slices);;
    emit EvUnlock.

End Handlers.

(** ** The quantizer as the specification words it *)

(** [(1 - color/255) * 100] over the rationals. *)
Definition exact_percent (color : Z) : Q :=
  ((1 - inject_Z color / 255) * 100)%Q.

(** Rounding to the nearest integer, halfway cases away from zero. *)
Definition round_Q (q : Q) : Z :=
  if Qle_bool 0 q then Qfloor (q + (1 # 2))%Q else Qceiling (q - (1 # 2))%Q.

(** The value the specification gives to a pixel. *)
Definition spec_cell_value (color observed : Z) : Z :=
  if observed =? 0 then -1 else round_Q (exact_percent color).

Definition bytes : list Z := map Z.of_nat (seq 0 256).

Definition percent_agrees (color : Z) : bool :=
  (occupied_percent color =? round_Q (exact_percent color))
  && (0 <=? occupied_percent color) && (occupied_percent color <=? 100).

(** ** The order of the cells as the specification words it *)

(** The cells of source row [y], left to right. *)
Definition source_row (pixel_data : list Z) (width : Z) (y : nat) : list Z :=
  map (fun x => cell_value (pixel_at pixel_data (Z.of_nat y * width + Z.of_nat x)))
      (seq 0 (Z.to_nat width)).

(** Source rows [rows - 1] down to 0, one after the other. *)
Fixpoint flipped_rows (pixel_data : list Z) (width : Z) (rows : nat) : list Z :=
  match rows with
  | O => []
  | S y => source_row pixel_data width y ++ flipped_rows pixel_data width y
  end.


(** ** Reading a run *)

(** The number of fetches issued for [id] in a sequence of events, and the
    number of those that returned textures. *)
Definition is_fetch_of (id : SubmapId) (e : Event) : bool :=
  match e with
  | EvFetch id' _ => bool_decide (id' = id)
  | _ => false
  end.

Definition is_successful_fetch_of (id : SubmapId) (e : Event) : bool :=
  match e with
  | EvFetch id' (Some _) => bool_decide (id' = id)
  | _ => false
  end.

Fixpoint count_events (p : Event -> bool) (events : list Event) : nat :=
  match events with
  | [] => 0
  | e :: rest => ((if p e then 1 else 0) + count_events p rest)%nat
  end.

Definition fetch_count (id : SubmapId) (events : list Event) : nat :=
  count_events (is_fetch_of id) events.

Definition successful_fetch_count (id : SubmapId) (events : list Event) : nat :=
  count_events (is_successful_fetch_of id) events.

(** Whether [mutex_] is held after a sequence of events. *)
Fixpoint lock_held_from (held : bool) (events : list Event) : bool :=
  match events with
  | [] => held
  | EvLock :: rest => lock_held_from true rest
  | EvUnlock :: rest => lock_held_from false rest
  | _ :: rest => lock_held_from held rest
  end.

Definition lock_held (events : list Event) : bool := lock_held_from false events.

(** The mutex is free whenever a grid is handed over for publishing. *)
Definition publishes_unlocked (events : list Event) : Prop :=
  forall before grid after,
    events = before ++ EvPublish grid :: after -> lock_held before = false.

(** The ids a batch mentions. *)
Definition batch_ids (msg : SubmapList.t) : list SubmapId :=
  map id_of (SubmapList.submap msg).

(** The node as its constructor leaves it: no slice, an empty frame id and
    the zero time. *)
Definition Node_init (resolution : spec_float) : Node :=
  {| resolution_ := resolution;
     submap_slices_ := ∅;
     last_frame_id_ := "";
     last_timestamp_ := {| sec := 0; nanosec := 0 |} |}.

(** ** Stand-ins for the collaborators, to run the handlers on examples *)
Module Scenario.

Definition ToRigid3d (p : PoseMsg) : Rigid3d :=
  {| translation := position p; rotation := orientation p |}.

(** A gateway that replays a script of responses, then is unavailable. *)
Definition Gateway : Type := list (option SubmapTextures.t).

Definition FetchSubmapTextures (id : SubmapId) (g : Gateway)
  : Gateway * option SubmapTextures.t :=
  match g with
  | [] => ([], None)
  | response :: g' => (g', response)
  end.

(** Packs intensity and alpha into ARGB32 pixels and wraps them. *)
Definition pack (intensity alpha : Z) : Z :=
  let observed := if (intensity =? 0) && (alpha =? 0) then 0 else 255 in
  Z.lor (Z.shiftl alpha 24)
        (Z.lor (Z.shiftl intensity 16) (Z.shiftl observed 8)).

Fixpoint pack_all (intensity alpha : list Z) : list Z :=
  match intensity, alpha with
  | i :: intensity', a :: alpha' => pack i a :: pack_all intensity' alpha'
  | _, _ => []
  end.

Definition DrawTexture (intensity alpha : list Z) (width height : Z)
    (cairo_data : list Z) : list Z * option CairoSurface :=
  let data := cairo_data ++ pack_all intensity alpha in
  (data,
   Some {| surface_width := width; surface_height := height;
           surface_data := data |}).

Definition zero : spec_float := IEEE.double_of_int 0.
Definition one : spec_float := IEEE.double_of_int 1.

Definition identity : Rigid3d :=
  {| translation := {| vec_x := zero; vec_y := zero; vec_z := zero |};
     rotation := {| quat_w := one; quat_x := zero;
                    quat_y := zero; quat_z := zero |} |}.

Definition identity_msg : PoseMsg :=
  {| position := {| vec_x := zero; vec_y := zero; vec_z := zero |};
     orientation := {| quat_w := one; quat_x := zero;
                       quat_y := zero; quat_z := zero |} |}.

Definition indeterminate : SubmapSlice.t :=
  {| SubmapSlice.width := 0; SubmapSlice.height := 0;
     SubmapSlice.version := 0; SubmapSlice.resolution := zero;
     SubmapSlice.slice_pose := identity; SubmapSlice.surface := None;
     SubmapSlice.cairo_data := []; SubmapSlice.pose := identity;
     SubmapSlice.metadata_version := 0 |}.

(** The resolution flag at its default, 0.05. *)
Definition resolution : spec_float := IEEE.double_of_decimal 5 2.

(** A canvas of two columns and three rows.  Row 0 is unobserved, row 1
    is observed and white, row 2 is observed and black. *)
Definition canvas : CairoSurface :=
  {| surface_width := 2; surface_height := 3;
     surface_data :=
       [ pack 0 0; pack 0 0;
         pack 255 255; pack 255 255;
         pack 0 255; pack 0 255 ] |}.

(** A compositor that paints [canvas] with the origin at (10, 20). *)
Definition PaintSubmapSlices (slices : gmap SubmapId SubmapSlice.t)
    (resolution : spec_float) : PaintSubmapSlicesResult.t :=
  {| PaintSubmapSlicesResult.surface := canvas;
     PaintSubmapSlicesResult.origin :=
       (IEEE.float_of_int 10, IEEE.float_of_int 20) |}.

(** An empty surface a hundred rows high. *)
Definition tall : CairoSurface :=
  {| surface_width := 0; surface_height := 100; surface_data := [] |}.

Definition entry (trajectory_id submap_index submap_version : Z)
  : SubmapEntry.t :=
  {| SubmapEntry.trajectory_id := trajectory_id;
     SubmapEntry.submap_index := submap_index;
     SubmapEntry.submap_version := submap_version;
     SubmapEntry.pose := identity_msg |}.

Definition batch (submap : list SubmapEntry.t) : SubmapList.t :=
  {| SubmapList.stamp := {| sec := 7; nanosec := 0 |};
     SubmapList.frame_id := "map";
     SubmapList.submap := submap |}.

(** A response with one texture of a single observed pixel. *)
Definition textures (version : Z) : SubmapTextures.t :=
  {| SubmapTextures.version := version;
     SubmapTextures.textures :=
       [ {| SubmapTexture.intensity := [128];
            SubmapTexture.alpha := [255];
            SubmapTexture.width := 1;
            SubmapTexture.height := 1;
            SubmapTexture.resolution := resolution;
            SubmapTexture.slice_pose := identity |} ] |}.

Definition world (g : Gateway) (n : nat) : World Gateway :=
  {| gateway := g; subscribers := n |}.

Definition HandleSubmapList :=
  HandleSubmapList ToRigid3d FetchSubmapTextures DrawTexture indeterminate.
Definition DrawAndPublish := @DrawAndPublish Gateway PaintSubmapSlices.

Definition node0 : Node := Node_init resolution.

(** The node after a first batch that mentions submap (0, 0) at version 1
    and whose fetch succeeds with version 1. *)
Definition node1 : Node :=
  match result_of (HandleSubmapList (batch [entry 0 0 1]) node0
                     (world [Some (textures 1)] 1)) with
  | Some node => node
  | None => node0
  end.

End Scenario.

Module Runs.
Import Scenario.

(** [node1] handles a batch that drops submap (0, 0) and mentions
    submap (0, 1), while the gateway is unavailable. *)
Definition second_batch : SubmapList.t := batch [entry 0 1 1].

Definition node2 : Node :=
  match result_of (HandleSubmapList second_batch node1 (world [] 1)) with
  | Some node => node
  | None => node1
  end.

(** [node1] is notified of version 2 of submap (0, 0) while the gateway
    is unavailable. *)
Definition newer_batch : SubmapList.t := batch [entry 0 0 2].

Definition node3 : Node :=
  match result_of (HandleSubmapList newer_batch node1 (world [] 1)) with
  | Some node => node
  | None => node1
  end.

(** A batch that mentions submap (0, 0) twice. *)
Definition twice : SubmapList.t := batch [entry 0 0 1; entry 0 0 1].

(** A batch of two submaps, the first of which is cached in [node1]. *)
Definition two_submaps : SubmapList.t := batch [entry 0 0 1; entry 0 1 1].

Definition node4 : Node :=
  match result_of (HandleSubmapList two_submaps node1
                     (world [Some (textures 1)] 1)) with
  | Some node => node
  | None => node1
  end.

(** The grid published from [canvas]. *)
Definition canvas_grid : OccupancyGrid.t :=
  match occupancy_grid_msg resolution "map" {| sec := 7; nanosec := 0 |}
          (IEEE.float_of_int 10, IEEE.float_of_int 20) canvas with
  | Some grid => grid
  | None =>
      {| OccupancyGrid.header_stamp := {| sec := 0; nanosec := 0 |};
         OccupancyGrid.header_frame_id := "";
         OccupancyGrid.info_map_load_time := {| sec := 0; nanosec := 0 |};
         OccupancyGrid.info_resolution := zero;
         OccupancyGrid.info_width := 0;
         OccupancyGrid.info_height := 0;
         OccupancyGrid.origin_position :=
           {| vec_x := zero; vec_y := zero; vec_z := zero |};
         OccupancyGrid.origin_orientation :=
           {| quat_w := one; quat_x := zero; quat_y := zero; quat_z := zero |};
         OccupancyGrid.data := [] |}
  end.
End Runs.


(** ** Further readings of a run *)

(** Neighbouring color bytes: the brighter one is no more occupied, by at
    most one percent. *)
Definition percent_step_ok (color : Z) : bool :=
  (occupied_percent (color + 1) <=? occupied_percent color)
  && (occupied_percent color <=? occupied_percent (color + 1) + 1).

Definition is_fetch_event (e : Event) : bool :=
  match e with
  | EvFetch _ _ => true
  | _ => false
  end.

(** The ids fetched, in the order of the fetches. *)
Fixpoint fetched_ids (events : list Event) : list SubmapId :=
  match events with
  | [] => []
  | EvFetch id _ :: rest => id :: fetched_ids rest
  | _ :: rest => fetched_ids rest
  end.

(** A fetch that returned a response without textures, on which
    [CHECK(!fetched_textures->textures.empty())] fails. *)
Definition is_empty_response (e : Event) : bool :=
  match e with
  | EvFetch _ (Some response) =>
      match SubmapTextures.textures response with
      | [] => true
      | _ :: _ => false
      end
  | _ => false
  end.

(** The last notification of a batch that names [id]. *)
Fixpoint last_notification (id : SubmapId) (submap : list SubmapEntry.t)
  : option SubmapEntry.t :=
  match submap with
  | [] => None
  | submap_msg :: rest =>
      match last_notification id rest with
      | Some later => Some later
      | None => if decide (id_of submap_msg = id) then Some submap_msg else None
      end
  end.

Section Readings.
Context {G : Type}.
Variable ToRigid3d : PoseMsg -> Rigid3d.
Variable FetchSubmapTextures : SubmapId -> G -> G * option SubmapTextures.t.
Variable DrawTexture :
  list Z -> list Z -> Z -> Z -> list Z -> list Z * option CairoSurface.
Variable indeterminate : SubmapSlice.t.

(** The gateway asked for [ids] one after the other: the state it ends in
    and the fetches with their responses. *)
Fixpoint replay (ids : list SubmapId) (g : G) : G * list Event :=
  match ids with
  | [] => (g, [])
  | id :: rest =>
      let '(g1, response) := FetchSubmapTextures id g in
      let '(g2, events) := replay rest g1 in
      (g2, EvFetch id response :: events)
  end.




(** What a notification writes to the slices when its texture is current:
    the pose and the metadata version. *)
Definition refresh_metadata (slices : gmap SubmapId SubmapSlice.t)
    (submap_msg : SubmapEntry.t) : gmap SubmapId SubmapSlice.t :=
  <[ id_of submap_msg :=
       SliceSet.set_metadata_version (SubmapEntry.submap_version submap_msg)
         (SliceSet.set_pose (ToRigid3d (SubmapEntry.pose submap_msg))
            (slice_at indeterminate slices (id_of submap_msg))) ]> slices.

End Readings.

(** ** The period of the publishing timer *)

(** Conversion of a [double] to [int]: the fraction is discarded.  Values
    outside the range of [int] are undefined in the source and are not
    given a meaning here beyond the truncation. *)
Definition int_of_double (x : spec_float) : Z :=
  match x with
  | S754_finite s m e =>
      let mag := if 0 <=? e then Z.pos m * 2 ^ e else Z.pos m / 2 ^ (- e) in
      if s then - mag else mag
  | _ => 0
  end.

(** The period the constructor gives the wall timer, in milliseconds:
    [int(publish_period_sec * 1000)]. *)
Definition timer_period_ms (publish_period_sec : spec_float) : Z :=
  int_of_double (IEEE.dmul publish_period_sec (IEEE.double_of_int 1000)).

(** A period of [k] milliseconds as the flag reads it from the decimal
    [k / 1000]. *)
Definition period_of_ms (k : Z) : spec_float := IEEE.double_of_decimal k 3.

Definition timer_period_ok (k : Z) : bool :=
  let period := timer_period_ms (period_of_ms k) in
  ((period =? k) || (period =? k - 1))
  && ((1000 <? k) || (period =? k)).
(** ** Properties of the quantizer *)

Lemma byte_in_bytes (c : Z) : 0 <= c < 256 -> In c bytes.
Proof.
  intros Hc. unfold bytes. apply in_map_iff. exists (Z.to_nat c). split.
  - lia.
  - apply in_seq. lia.
Qed.

Lemma percent_agrees_all : forallb percent_agrees bytes = true.
Proof. vm_compute. reflexivity. Qed.

Lemma occupied_percent_spec (c : Z) :
  0 <= c < 256 ->
  occupied_percent c = round_Q (exact_percent c) /\ 0 <= occupied_percent c <= 100.
Proof.
  intros Hc.
  pose proof (proj1 (forallb_forall percent_agrees bytes) percent_agrees_all c
                (byte_in_bytes c Hc)) as H.
  unfold percent_agrees in H.
  apply andb_prop in H as [H H3]. apply andb_prop in H as [H1 H2].
  apply Z.eqb_eq in H1. apply Z.leb_le in H2. apply Z.leb_le in H3. auto.
Qed.

Lemma color_of_byte (packed : Z) : 0 <= color_of packed < 256.
Proof. unfold color_of. apply Z.mod_pos_bound. lia. Qed.

Lemma cell_value_range (packed : Z) : -1 <= cell_value packed <= 100.
Proof.
  unfold cell_value. destruct (observed_of packed =? 0); [lia|].
  pose proof (occupied_percent_spec _ (color_of_byte packed)). lia.
Qed.

Lemma checked_cell_value_total (packed : Z) :
  checked_cell_value packed = Some (cell_value packed).
Proof.
  unfold checked_cell_value. pose proof (cell_value_range packed) as [H1 H2].
  apply Z.leb_le in H1. apply Z.leb_le in H2. cbv zeta. rewrite H1, H2.
  reflexivity.
Qed.

(** C2. The quantizer maps a pixel whose observed byte is 0 to -1 whatever
    its color byte, and every other pixel to [(1 - color/255) * 100]
    rounded to the nearest integer; that integer lies between 0 and 100
    for every color byte, so neither [CHECK] aborts. *)
Theorem quantizer_value (packed : Z) :
  0 <= color_of packed <= 255 /\
  checked_cell_value packed
  = Some (spec_cell_value (color_of packed) (observed_of packed)) /\
  spec_cell_value (color_of packed) 0 = -1 /\
  0 <= round_Q (exact_percent (color_of packed)) <= 100.
Proof.
  pose proof (color_of_byte packed) as Hc.
  destruct (occupied_percent_spec _ Hc) as [Heq Hr].
  split; [lia|]. split.
  - rewrite checked_cell_value_total. unfold cell_value, spec_cell_value.
    destruct (observed_of packed =? 0); congruence.
  - split; [reflexivity|]. rewrite <- Heq. exact Hr.
Qed.

(** ** The order of the published cells *)

Lemma int8_of_cell_value (packed : Z) :
  int8_of_int (cell_value packed) = cell_value packed.
Proof.
  pose proof (cell_value_range packed). unfold int8_of_int.
  rewrite Z.mod_small; lia.
Qed.

Lemma row_loop_spec (pixel_data : list Z) (width y : Z) (remaining : nat) :
  forall (x : Z) (data : list Z),
    row_loop pixel_data width y remaining x data
    = Some (data ++
            map (fun k => cell_value
                            (pixel_at pixel_data (y * width + (x + Z.of_nat k))))
                (seq 0 remaining)).
Proof.
  induction remaining as [|n IH]; intros x data; simpl.
  - now rewrite app_nil_r.
  - rewrite checked_cell_value_total, int8_of_cell_value, IH.
    rewrite <- app_assoc. simpl. rewrite Z.add_0_r. do 3 f_equal.
    rewrite <- seq_shift, map_map. apply map_ext. intros k.
    do 3 f_equal. lia.
Qed.

Lemma rows_loop_spec (pixel_data : list Z) (width : Z) (rows : nat) :
  forall data : list Z,
    rows_loop pixel_data width rows data
    = Some (data ++ flipped_rows pixel_data width rows).
Proof.
  induction rows as [|y IH]; intros data; simpl.
  - now rewrite app_nil_r.
  - rewrite row_loop_spec, IH, <- app_assoc. reflexivity.
Qed.

Lemma length_source_row (pixel_data : list Z) (width : Z) (y : nat) :
  length (source_row pixel_data width y) = Z.to_nat width.
Proof. unfold source_row. now rewrite length_map, length_seq. Qed.

Lemma length_flipped_rows (pixel_data : list Z) (width : Z) (rows : nat) :
  length (flipped_rows pixel_data width rows) = (rows * Z.to_nat width)%nat.
Proof.
  induction rows as [|y IH]; simpl; [reflexivity|].
  rewrite length_app, length_source_row, IH. lia.
Qed.

Lemma nth_map_lt {A B : Type} (f : A -> B) (l : list A) (d : B) (d' : A) :
  forall c : nat, (c < length l)%nat -> nth c (map f l) d = f (nth c l d').
Proof.
  induction l as [|a l IH]; intros c Hc; simpl in *; [lia|].
  destruct c as [|c]; [reflexivity|]. apply IH. lia.
Qed.

Lemma nth_source_row (pixel_data : list Z) (width : Z) (y c : nat) :
  (c < Z.to_nat width)%nat ->
  nth c (source_row pixel_data width y) 0
  = cell_value (pixel_at pixel_data (Z.of_nat y * width + Z.of_nat c)).
Proof.
  intros Hc. unfold source_row.
  rewrite (nth_map_lt _ _ _ 0%nat) by now rewrite length_seq.
  rewrite seq_nth by exact Hc. reflexivity.
Qed.

Lemma nth_flipped_rows (pixel_data : list Z) (width : Z) (rows : nat) :
  forall r c : nat,
    (r < rows)%nat -> (c < Z.to_nat width)%nat ->
    nth (r * Z.to_nat width + c) (flipped_rows pixel_data width rows) 0
    = cell_value
        (pixel_at pixel_data
                  (Z.of_nat (rows - 1 - r) * width + Z.of_nat c)).
Proof.
  induction rows as [|y IH]; intros r c Hr Hc; [lia|]. simpl flipped_rows.
  destruct r as [|r'].
  - rewrite app_nth1 by (rewrite length_source_row; lia).
    simpl. rewrite nth_source_row by exact Hc.
    replace (y - 0 - 0)%nat with y by lia. reflexivity.
  - rewrite app_nth2 by (rewrite length_source_row; lia).
    rewrite length_source_row.
    replace (S r' * Z.to_nat width + c - Z.to_nat width)%nat
      with (r' * Z.to_nat width + c)%nat by lia.
    rewrite IH by lia. do 3 f_equal. lia.
Qed.

Lemma occupancy_grid_msg_data (resolution_ : spec_float) (frame_id : string)
    (time : Time) (origin : spec_float * spec_float) (surface : CairoSurface) :
  exists grid,
    occupancy_grid_msg resolution_ frame_id time origin surface = Some grid /\
    OccupancyGrid.data grid
    = flipped_rows (surface_data surface) (surface_width surface)
                   (Z.to_nat (surface_height surface)).
Proof.
  unfold occupancy_grid_msg. rewrite rows_loop_spec. eexists. split; reflexivity.
Qed.

(** ** Properties of the handlers *)

Lemma count_events_app (p : Event -> bool) (a b : list Event) :
  count_events p (a ++ b) = (count_events p a + count_events p b)%nat.
Proof. induction a as [|e a IH]; simpl; [reflexivity|]. rewrite IH. lia. Qed.

Lemma fetch_count_app (id : SubmapId) (a b : list Event) :
  fetch_count id (a ++ b) = (fetch_count id a + fetch_count id b)%nat.
Proof. apply count_events_app. Qed.

Lemma successful_fetch_count_app (id : SubmapId) (a b : list Event) :
  successful_fetch_count id (a ++ b)
  = (successful_fetch_count id a + successful_fetch_count id b)%nat.
Proof. apply count_events_app. Qed.

Lemma elem_of_map_id_of (e : SubmapEntry.t) (l : list SubmapEntry.t) :
  e ∈ l -> id_of e ∈ map id_of l.
Proof.
  induction l as [|e' l IH]; intros He.
  - now apply not_elem_of_nil in He.
  - simpl. apply elem_of_cons in He as [->|He]; apply elem_of_cons; auto.
Qed.

Lemma texture_is_current_metadata (p : Rigid3d) (v v' : Z) (s : SubmapSlice.t) :
  texture_is_current (SliceSet.set_metadata_version v (SliceSet.set_pose p s)) v'
  = texture_is_current s v'.
Proof. reflexivity. Qed.

Section HandlerProperties.
Context {G : Type}.
Variable ToRigid3d : PoseMsg -> Rigid3d.
Variable FetchSubmapTextures : SubmapId -> G -> G * option SubmapTextures.t.
Variable DrawTexture :
  list Z -> list Z -> Z -> Z -> list Z -> list Z * option CairoSurface.
Variable indeterminate : SubmapSlice.t.

Local Abbreviation handle :=
  (handle_submap_msg ToRigid3d FetchSubmapTextures DrawTexture indeterminate).
Local Abbreviation for_each :=
  (for_each_submap ToRigid3d FetchSubmapTextures DrawTexture indeterminate).
Local Abbreviation Handle :=
  (HandleSubmapList ToRigid3d FetchSubmapTextures DrawTexture indeterminate).
Local Abbreviation slot := (slice_at indeterminate).

Ltac run_body :=
  unfold handle_submap_msg, fetch, mbind, M_bind, bind, mret, M_ret, ret,
    CHECK, events_of, result_of, world_of;
  rewrite ?texture_is_current_metadata;
  repeat
    match goal with
    | |- context [texture_is_current ?s ?v] =>
        destruct (texture_is_current s v) eqn:?
    | |- context [FetchSubmapTextures ?i ?g] =>
        destruct (FetchSubmapTextures i g) as [? [?|]] eqn:?
    | |- context [SubmapTextures.textures ?f] =>
        destruct (SubmapTextures.textures f) eqn:?
    | |- context [DrawTexture ?a ?b ?c ?d ?e] =>
        destruct (DrawTexture a b c d e) eqn:?
    end;
  cbn [fst snd].

(** The events of one pass through the loop body: nothing when the
    texture is current, one fetch for the id otherwise. *)
Lemma handle_events (e : SubmapEntry.t)
    (slices : gmap SubmapId SubmapSlice.t) (del : gset SubmapId)
    (w : World G) :
  events_of (handle e (slices, del) w)
  = if texture_is_current (slot slices (id_of e))
                          (SubmapEntry.submap_version e)
    then []
    else [EvFetch (id_of e)
                  (snd (FetchSubmapTextures (id_of e) (gateway w)))].
Proof. run_body; reflexivity. Qed.

Ltac count_fetch H :=
  unfold successful_fetch_count, fetch_count in H; simpl in H;
  rewrite ?bool_decide_eq_true_2 in H by reflexivity.

(** What one pass through the loop body leaves: the id is struck from
    the ids to delete and its slice is written, with the pose and the
    version of the message; the raster members change only when a fetch
    returned textures. *)
Lemma handle_result (e : SubmapEntry.t)
    (slices slices' : gmap SubmapId SubmapSlice.t) (del del' : gset SubmapId)
    (w : World G) :
  result_of (handle e (slices, del) w) = Some (slices', del') ->
  del' = del ∖ {[ id_of e ]} /\
  exists s, slices' = <[ id_of e := s ]> slices /\
    SubmapSlice.metadata_version s = SubmapEntry.submap_version e /\
    SubmapSlice.pose s = ToRigid3d (SubmapEntry.pose e) /\
    (successful_fetch_count (id_of e) (events_of (handle e (slices, del) w))
     = 0%nat ->
     raster_of s = raster_of (slot slices (id_of e))).
Proof.
  run_body; intros H; inversion H; subst; clear H; (split; [reflexivity|]);
    eexists; (split; [reflexivity|]); simpl; (split; [reflexivity|]);
    (split; [reflexivity|]); intros Hc; try reflexivity.
  count_fetch Hc. discriminate.
Qed.

(** A fetch that returns textures sets the texture version of the slice
    to the version of the response. *)
Lemma handle_fetched (e : SubmapEntry.t)
    (slices : gmap SubmapId SubmapSlice.t) (del : gset SubmapId)
    (w : World G) (g : G) (response : SubmapTextures.t) :
  texture_is_current (slot slices (id_of e)) (SubmapEntry.submap_version e)
  = false ->
  FetchSubmapTextures (id_of e) (gateway w) = (g, Some response) ->
  SubmapTextures.textures response <> [] ->
  exists s,
    handle e (slices, del) w
    = ({| gateway := g; subscribers := subscribers w |},
       [EvFetch (id_of e) (Some response)],
       Some (<[ id_of e := s ]> slices, del ∖ {[ id_of e ]})) /\
    SubmapSlice.version s = SubmapTextures.version response /\
    SubmapSlice.metadata_version s = SubmapEntry.submap_version e.
Proof.
  intros Hcur Hfetch Hne. run_body; try congruence.
  inversion Hfetch; subst. eexists. split; [reflexivity|]. split; reflexivity.
Qed.

Lemma lookup_slot_insert (slices : gmap SubmapId SubmapSlice.t)
    (id id' : SubmapId) (s : SubmapSlice.t) :
  slot (<[ id := s ]> slices) id'
  = if decide (id = id') then s else slot slices id'.
Proof.
  unfold slice_at. rewrite lookup_insert. destruct (decide (id = id')); reflexivity.
Qed.

Lemma for_each_cons (e : SubmapEntry.t) (l : list SubmapEntry.t)
    (st : gmap SubmapId SubmapSlice.t * gset SubmapId) (w : World G) :
  for_each (e :: l) st w
  = match handle e st w with
    | (w1, ev1, Some st1) =>
        (world_of (for_each l st1 w1),
         ev1 ++ events_of (for_each l st1 w1),
         result_of (for_each l st1 w1))
    | (w1, ev1, None) => (w1, ev1, None)
    end.
Proof.
  simpl. unfold mbind, M_bind, bind.
  destruct (handle e st w) as [[w1 ev1] [st1|]]; [|reflexivity].
  unfold world_of, events_of, result_of.
  destruct (for_each l st1 w1) as [[w2 ev2] r]. reflexivity.
Qed.

(** After the loop the slices are those before it and those the batch
    mentions, and the ids left to delete are those the batch does not
    mention. *)
Lemma for_each_dom (l : list SubmapEntry.t) :
  forall (slices slices' : gmap SubmapId SubmapSlice.t)
         (del del' : gset SubmapId) (w : World G),
    result_of (for_each l (slices, del) w) = Some (slices', del') ->
    dom slices' = dom slices ∪ list_to_set (map id_of l) /\
    del' = del ∖ list_to_set (map id_of l).
Proof.
  induction l as [|e l IH]; intros slices slices' del del' w H.
  - inversion H; subst. simpl. split; set_solver.
  - rewrite for_each_cons in H.
    destruct (handle e (slices, del) w) as [[w1 ev1] [[slices1 del1]|]] eqn:E;
      [|discriminate].
    pose proof (handle_result e slices slices1 del del1 w) as Hs.
    rewrite E in Hs. destruct (Hs eq_refl) as [Hd [s [Hi _]]].
    apply IH in H as [H1 H2]. subst. rewrite H1, dom_insert_L. simpl.
    split; set_solver.
Qed.

Lemma erase_all_lookup (ids : list SubmapId) :
  forall (slices : gmap SubmapId SubmapSlice.t) (id : SubmapId),
    erase_all ids slices !! id
    = if decide (id ∈ ids) then None else slices !! id.
Proof.
  unfold erase_all.
  induction ids as [|i ids IH]; intros slices id; simpl.
  - destruct (decide (id ∈ [])) as [H|_]; [|reflexivity].
    now apply not_elem_of_nil in H.
  - rewrite IH, lookup_delete.
    destruct (decide (id ∈ ids)) as [Hin|Hout].
    + rewrite decide_True by (now apply elem_of_cons; right). reflexivity.
    + destruct (decide (i = id)) as [->|Hne].
      * rewrite decide_True by (now apply elem_of_cons; left). reflexivity.
      * rewrite decide_False; [reflexivity|].
        intros [->|Hin]%elem_of_cons; congruence.
Qed.

Lemma erase_all_dom (ids : list SubmapId)
    (slices : gmap SubmapId SubmapSlice.t) :
  dom (erase_all ids slices) = dom slices ∖ list_to_set ids.
Proof.
  apply set_eq. intros id.
  rewrite elem_of_difference, !elem_of_dom, erase_all_lookup, elem_of_list_to_set.
  destruct (decide (id ∈ ids)) as [Hin|Hout].
  - split; [intros [? ?]; discriminate | tauto].
  - tauto.
Qed.

(** With nobody listening the handler takes the lock, looks at the
    subscriber count and returns. *)
Lemma Handle_gated (msg : SubmapList.t) (node : Node) (w : World G) :
  subscribers w = 0%nat ->
  Handle msg node w = (w, [EvLock; EvUnlock], Some node).
Proof.
  intros H. unfold HandleSubmapList, mbind, M_bind, bind, emit,
    count_subscribers, ret. rewrite H. reflexivity.
Qed.

(** With a listener the handler runs the loop from the current slices
    with every cached id marked for deletion, erases what is left marked
    and records the header. *)
Lemma Handle_run (msg : SubmapList.t) (node : Node) (w : World G) :
  subscribers w <> 0%nat ->
  Handle msg node w
  = match for_each (SubmapList.submap msg)
                   (submap_slices_ node, dom (submap_slices_ node)) w with
    | (w', events, Some (slices, del)) =>
        (w', EvLock :: events ++ [EvUnlock],
         Some {| resolution_ := resolution_ node;
                 submap_slices_ := erase_all (elements del) slices;
                 last_frame_id_ := SubmapList.frame_id msg;
                 last_timestamp_ := SubmapList.stamp msg |})
    | (w', events, None) => (w', EvLock :: events, None)
    end.
Proof.
  intros H. unfold HandleSubmapList, mbind, M_bind, bind, emit,
    count_subscribers, ret.
  destruct (subscribers w) as [|n]; [congruence|]. cbn [Nat.eqb].
  destruct (for_each _ _ w) as [[w' events] [[slices del]|]]; simpl;
    rewrite ?app_nil_r; reflexivity.
Qed.

(** C1, as amended.  When the topic has a subscriber and the handler
    returns, the ids of the cached slices are exactly the ids the batch
    mentions. *)
Theorem reconciliation_completeness (msg : SubmapList.t) (node node' : Node)
    (w : World G) :
  subscribers w <> 0%nat ->
  result_of (Handle msg node w) = Some node' ->
  dom (submap_slices_ node') = list_to_set (batch_ids msg).
Proof.
  intros Hsub Hres. rewrite Handle_run in Hres by exact Hsub.
  destruct (for_each _ _ w) as [[w' events] [[slices del]|]] eqn:E;
    [|discriminate].
  inversion Hres; subst; clear Hres. simpl.
  pose proof (for_each_dom (SubmapList.submap msg) (submap_slices_ node)
                slices (dom (submap_slices_ node)) del w) as Hd.
  rewrite E in Hd. destruct (Hd eq_refl) as [H1 H2].
  rewrite erase_all_dom, list_to_set_elements_L, H1, H2.
  unfold batch_ids. apply set_eq. intros id.
  rewrite elem_of_difference, elem_of_union, elem_of_difference.
  destruct (decide (id ∈ (list_to_set (map id_of (SubmapList.submap msg))
                          : gset SubmapId))); tauto.
Qed.

(** C9. With no subscriber the handler returns at once: no fetch is
    issued, and the slices, the frame id and the timestamp of the node
    are what they were. *)
Theorem no_subscriber_no_work (msg : SubmapList.t) (node : Node)
    (w : World G) :
  subscribers w = 0%nat ->
  Handle msg node w = (w, [EvLock; EvUnlock], Some node) /\
  forall id, fetch_count id (events_of (Handle msg node w)) = 0%nat.
Proof.
  intros H. rewrite Handle_gated by exact H. split; [reflexivity|].
  intros id. reflexivity.
Qed.

Lemma handle_fetch_count (e : SubmapEntry.t)
    (slices : gmap SubmapId SubmapSlice.t) (del : gset SubmapId)
    (w : World G) (id : SubmapId) :
  fetch_count id (events_of (handle e (slices, del) w))
  = if decide (id_of e = id)
    then if texture_is_current (slot slices (id_of e))
                               (SubmapEntry.submap_version e)
         then 0%nat else 1%nat
    else 0%nat.
Proof.
  rewrite handle_events. unfold fetch_count.
  destruct (texture_is_current _ _); simpl.
  - destruct (decide (id_of e = id)); reflexivity.
  - destruct (decide (id_of e = id)) as [Heq|Hne].
    + rewrite bool_decide_eq_true_2 by exact Heq. reflexivity.
    + rewrite bool_decide_eq_false_2 by exact Hne. reflexivity.
Qed.

Lemma for_each_events_cons (e : SubmapEntry.t) (l : list SubmapEntry.t)
    (st : gmap SubmapId SubmapSlice.t * gset SubmapId) (w : World G) :
  events_of (for_each (e :: l) st w)
  = events_of (handle e st w)
    ++ match handle e st w with
       | (w1, _, Some st1) => events_of (for_each l st1 w1)
       | (_, _, None) => []
       end.
Proof.
  rewrite for_each_cons.
  destruct (handle e st w) as [[w1 ev1] [st1|]]; simpl.
  - reflexivity.
  - unfold events_of. simpl. now rewrite app_nil_r.
Qed.

(** No fetch is issued for an id the batch does not mention. *)
Lemma for_each_fetch_absent (l : list SubmapEntry.t) :
  forall (st : gmap SubmapId SubmapSlice.t * gset SubmapId) (w : World G)
         (id : SubmapId),
    id ∉ map id_of l ->
    fetch_count id (events_of (for_each l st w)) = 0%nat.
Proof.
  induction l as [|e l IH]; intros [slices del] w id Hid; [reflexivity|].
  rewrite for_each_events_cons, fetch_count_app, handle_fetch_count.
  simpl in Hid. apply not_elem_of_cons in Hid as [Hne Hid].
  rewrite decide_False by congruence.
  destruct (handle e (slices, del) w) as [[w1 ev1] [st1|]]; [|reflexivity].
  now apply IH.
Qed.

(** A batch that mentions no id twice fetches no id twice, whether the
    handler returns or aborts. *)
Lemma for_each_fetch_le (l : list SubmapEntry.t) :
  NoDup (map id_of l) ->
  forall (st : gmap SubmapId SubmapSlice.t * gset SubmapId) (w : World G)
         (id : SubmapId),
    (fetch_count id (events_of (for_each l st w)) <= 1)%nat.
Proof.
  induction l as [|e l IH]; intros Hnd [slices del] w id;
    [change (0 <= 1)%nat; lia|].
  simpl in Hnd. apply NoDup_cons in Hnd as [Hnotin Hnd].
  rewrite for_each_events_cons, fetch_count_app, handle_fetch_count.
  destruct (handle e (slices, del) w) as [[w1 ev1] [st1|]].
  - destruct (decide (id_of e = id)) as [<-|Hne].
    + rewrite (for_each_fetch_absent l st1 w1 _ Hnotin).
      destruct (texture_is_current _ _); lia.
    + specialize (IH Hnd st1 w1 id). lia.
  - change (fetch_count id []) with 0%nat.
    destruct (decide (id_of e = id));
      [destruct (texture_is_current _ _)|]; lia.
Qed.

(** When it returns, such a batch has fetched exactly the ids whose
    texture was not current. *)
Lemma for_each_fetch_exact (l : list SubmapEntry.t) :
  NoDup (map id_of l) ->
  forall (slices : gmap SubmapId SubmapSlice.t) (del : gset SubmapId)
         (w : World G) (st' : gmap SubmapId SubmapSlice.t * gset SubmapId)
         (e : SubmapEntry.t),
    result_of (for_each l (slices, del) w) = Some st' ->
    e ∈ l ->
    fetch_count (id_of e) (events_of (for_each l (slices, del) w))
    = if texture_is_current (slot slices (id_of e))
                            (SubmapEntry.submap_version e)
      then 0%nat else 1%nat.
Proof.
  induction l as [|e0 l IH]; intros Hnd slices del w st' e Hres He.
  - now apply not_elem_of_nil in He.
  - simpl in Hnd. apply NoDup_cons in Hnd as [Hnotin Hnd].
    rewrite for_each_events_cons, fetch_count_app, handle_fetch_count.
    rewrite for_each_cons in Hres.
    destruct (handle e0 (slices, del) w) as [[w1 ev1] [[slices1 del1]|]] eqn:E;
      [|discriminate].
    unfold result_of in Hres. simpl in Hres. fold (result_of (for_each l (slices1, del1) w1)) in Hres.
    pose proof (handle_result e0 slices slices1 del del1 w) as Hs.
    rewrite E in Hs. destruct (Hs eq_refl) as [_ [s [Hins _]]].
    apply elem_of_cons in He as [->|He].
    + rewrite decide_True by reflexivity.
      rewrite (for_each_fetch_absent l _ _ _ Hnotin). lia.
    + assert (Hne : id_of e0 <> id_of e).
      { intros Heq. apply Hnotin. rewrite Heq.
        now apply elem_of_map_id_of. }
      rewrite decide_False by exact Hne.
      rewrite (IH Hnd slices1 del1 w1 st' e Hres He).
      rewrite Hins, lookup_slot_insert, decide_False by exact Hne.
      reflexivity.
Qed.

Lemma Handle_count (p : Event -> bool) (msg : SubmapList.t) (node : Node)
    (w : World G) :
  p EvLock = false -> p EvUnlock = false ->
  subscribers w <> 0%nat ->
  count_events p (events_of (Handle msg node w))
  = count_events p
      (events_of (for_each (SubmapList.submap msg)
                    (submap_slices_ node, dom (submap_slices_ node)) w)).
Proof.
  intros Hl Hu Hsub. rewrite Handle_run by exact Hsub.
  destruct (for_each _ _ w) as [[w' events] [[slices del]|]];
    unfold events_of; simpl; rewrite ?count_events_app; simpl;
    rewrite Hl, ?Hu; lia.
Qed.

(** C3, as amended.  When the batch mentions no id twice, no id is
    fetched more than once during the call; when moreover the topic has
    a subscriber and the handler returns, an id of the batch is fetched
    exactly once if its slice has no buffer or a texture version other
    than the version of the notification, and not at all otherwise. *)
Theorem one_fetch_per_id (msg : SubmapList.t) (node : Node) (w : World G) :
  NoDup (batch_ids msg) ->
  (forall id, (fetch_count id (events_of (Handle msg node w)) <= 1)%nat) /\
  (subscribers w <> 0%nat ->
   forall node', result_of (Handle msg node w) = Some node' ->
   forall e, e ∈ SubmapList.submap msg ->
     fetch_count (id_of e) (events_of (Handle msg node w))
     = if texture_is_current (slot (submap_slices_ node) (id_of e))
                             (SubmapEntry.submap_version e)
       then 0%nat else 1%nat).
Proof.
  intros Hnd. split.
  - intros id. destruct (Nat.eq_dec (subscribers w) 0%nat) as [Hz|Hsub].
    + rewrite Handle_gated by exact Hz. change (0 <= 1)%nat. lia.
    + unfold fetch_count. rewrite Handle_count by (reflexivity || exact Hsub).
      now apply for_each_fetch_le.
  - intros Hsub node' Hres e He. unfold fetch_count.
    rewrite Handle_count by (reflexivity || exact Hsub).
    rewrite Handle_run in Hres by exact Hsub.
    destruct (for_each _ _ w) as [[w' events] [st'|]] eqn:E.
    + rewrite <- E. apply (for_each_fetch_exact _ Hnd _ _ _ st'); [|exact He].
      now rewrite E.
    + discriminate.
Qed.

(** Through the loop, the raster members of a slice stay as they were
    unless a fetch for its id returned textures. *)
Lemma for_each_raster (l : list SubmapEntry.t) :
  forall (slices slices' : gmap SubmapId SubmapSlice.t)
         (del del' : gset SubmapId) (w : World G) (id : SubmapId),
    result_of (for_each l (slices, del) w) = Some (slices', del') ->
    successful_fetch_count id (events_of (for_each l (slices, del) w))
    = 0%nat ->
    raster_of (slot slices' id) = raster_of (slot slices id).
Proof.
  induction l as [|e l IH]; intros slices slices' del del' w id Hres Hcount.
  - inversion Hres; subst. reflexivity.
  - rewrite for_each_events_cons, successful_fetch_count_app in Hcount.
    rewrite for_each_cons in Hres.
    pose proof (handle_result e slices) as Hs.
    destruct (handle e (slices, del) w) as [[w1 ev1] [[slices1 del1]|]] eqn:E;
      [|discriminate].
    destruct (Hs slices1 del del1 w) as [_ [s [Hins [_ [_ Hr]]]]];
      [now rewrite E|].
    rewrite E in Hr. unfold events_of at 1 in Hcount.
    unfold events_of in Hr. simpl in Hcount, Hr.
    rewrite (IH slices1 slices' del1 del' w1 id Hres) by lia.
    rewrite Hins, lookup_slot_insert.
    destruct (decide (id_of e = id)) as [<-|Hne]; [|reflexivity].
    apply Hr. lia.
Qed.

(** C4. When the handler returns and no fetch for an id of the batch
    returned textures during the call, because none was attempted or
    because the gateway was unavailable, the slice of that id keeps its
    buffer, texture version, width, height, slice pose and resolution;
    the slice of an id that was not cached is compared with the slice as
    created. *)
Theorem unfetched_raster_unchanged (msg : SubmapList.t) (node node' : Node)
    (w : World G) (id : SubmapId) :
  result_of (Handle msg node w) = Some node' ->
  id ∈ batch_ids msg ->
  successful_fetch_count id (events_of (Handle msg node w)) = 0%nat ->
  raster_of (slot (submap_slices_ node') id)
  = raster_of (slot (submap_slices_ node) id).
Proof.
  intros Hres Hin Hcount.
  destruct (Nat.eq_dec (subscribers w) 0%nat) as [Hz|Hsub].
  - rewrite Handle_gated in Hres by exact Hz. inversion Hres. reflexivity.
  - unfold successful_fetch_count in Hcount.
    rewrite Handle_count in Hcount by (reflexivity || exact Hsub).
    rewrite Handle_run in Hres by exact Hsub.
    destruct (for_each _ _ w) as [[w' events] [[slices del]|]] eqn:E;
      [|discriminate].
    inversion Hres; subst; clear Hres. simpl.
    pose proof (for_each_dom (SubmapList.submap msg) (submap_slices_ node)
                  slices (dom (submap_slices_ node)) del w) as Hd.
    pose proof (for_each_raster (SubmapList.submap msg) (submap_slices_ node)
                  slices (dom (submap_slices_ node)) del w id) as Hr.
    rewrite E in Hd, Hr. destruct (Hd eq_refl) as [_ Hdel].
    rewrite <- (Hr eq_refl Hcount). unfold slice_at at 1.
    rewrite erase_all_lookup, decide_False; [reflexivity|].
    rewrite elem_of_elements, Hdel, elem_of_difference, elem_of_list_to_set.
    unfold batch_ids in Hin. tauto.
Qed.

(** C10. A fetch that returns textures leaves the slice with the version
    of the response as its texture version and the version of the
    notification as its metadata version; the next notification for the
    id skips the fetch exactly when the slice has a surface and the
    version it carries equals the version of the response. *)
Theorem fetched_version_from_response (e : SubmapEntry.t)
    (slices : gmap SubmapId SubmapSlice.t) (del : gset SubmapId)
    (w : World G) (g : G) (response : SubmapTextures.t) :
  texture_is_current (slot slices (id_of e)) (SubmapEntry.submap_version e)
  = false ->
  FetchSubmapTextures (id_of e) (gateway w) = (g, Some response) ->
  SubmapTextures.textures response <> [] ->
  exists s,
    handle e (slices, del) w
    = ({| gateway := g; subscribers := subscribers w |},
       [EvFetch (id_of e) (Some response)],
       Some (<[ id_of e := s ]> slices, del ∖ {[ id_of e ]})) /\
    SubmapSlice.version s = SubmapTextures.version response /\
    SubmapSlice.metadata_version s = SubmapEntry.submap_version e /\
    forall (e' : SubmapEntry.t) (del' : gset SubmapId) (w' : World G),
      id_of e' = id_of e ->
      (events_of (handle e' (<[ id_of e := s ]> slices, del') w') = [] <->
       SubmapSlice.surface s <> None /\
       SubmapTextures.version response = SubmapEntry.submap_version e').
Proof.
  intros Hcur Hfetch Hne.
  destruct (handle_fetched e slices del w g response Hcur Hfetch Hne)
    as [s [Hrun [Hv Hm]]].
  exists s. split; [exact Hrun|]. split; [exact Hv|]. split; [exact Hm|].
  intros e' del' w' Hid.
  rewrite handle_events, Hid, lookup_slot_insert, decide_True by reflexivity.
  unfold texture_is_current. rewrite Hv.
  destruct (SubmapSlice.surface s) as [c|].
  - destruct (Z.eqb_spec (SubmapTextures.version response)
                         (SubmapEntry.submap_version e')) as [Heq|Hneq].
    + split; [intros _; split; [discriminate|exact Heq] | reflexivity].
    + split; [discriminate | intros [_ Heq]; contradiction].
  - split; [discriminate | intros [Hs _]; contradiction].
Qed.

End HandlerProperties.

(** ** Properties of the periodic tick and of the published grid *)

Section TickProperties.
Context {G : Type}.
Variable PaintSubmapSlices :
  gmap SubmapId SubmapSlice.t -> spec_float -> PaintSubmapSlicesResult.t.

Local Abbreviation Draw := (@DrawAndPublish G PaintSubmapSlices).
Local Abbreviation Publish := (@PublishOccupancyGrid G).

(** [PublishOccupancyGrid] always publishes the message it builds. *)
Lemma Publish_run (node : Node) (frame_id : string) (time : Time)
    (origin : spec_float * spec_float) (surface : CairoSurface)
    (w : World G) :
  exists grid,
    occupancy_grid_msg (resolution_ node) frame_id time origin surface
    = Some grid /\
    Publish node frame_id time origin surface w
    = (w, [EvPublish grid], Some tt).
Proof.
  destruct (occupancy_grid_msg_data (resolution_ node) frame_id time origin
              surface) as [grid [Hg _]].
  exists grid. split; [exact Hg|]. unfold PublishOccupancyGrid.
  rewrite Hg. reflexivity.
Qed.

(** A tick that does not skip takes the lock, paints, publishes the grid
    made from the painted surface and only then lets go of the lock. *)
Lemma Draw_run (node : Node) (w : World G) :
  submap_slices_ node <> ∅ -> last_frame_id_ node <> "" ->
  exists grid,
    occupancy_grid_msg (resolution_ node) (last_frame_id_ node)
      (last_timestamp_ node)
      (PaintSubmapSlicesResult.origin
         (PaintSubmapSlices (submap_slices_ node) (resolution_ node)))
      (PaintSubmapSlicesResult.surface
         (PaintSubmapSlices (submap_slices_ node) (resolution_ node)))
    = Some grid /\
    Draw node w
    = (w, [EvLock; EvPaint (submap_slices_ node) (resolution_ node);
           EvPublish grid; EvUnlock], Some tt).
Proof.
  intros Hs Hf.
  destruct (Publish_run node (last_frame_id_ node) (last_timestamp_ node)
              (PaintSubmapSlicesResult.origin
                 (PaintSubmapSlices (submap_slices_ node) (resolution_ node)))
              (PaintSubmapSlicesResult.surface
                 (PaintSubmapSlices (submap_slices_ node) (resolution_ node)))
              w) as [grid [Hg Hp]].
  exists grid. split; [exact Hg|]. unfold DrawAndPublish.
  assert (Hsize : Nat.eqb (size (submap_slices_ node)) 0 = false).
  { apply Nat.eqb_neq. intros Hz. now apply map_size_empty_iff in Hz. }
  assert (Hstr : string_empty (last_frame_id_ node) = false).
  { destruct (last_frame_id_ node); [congruence|reflexivity]. }
  rewrite Hsize, Hstr. cbn [orb].
  unfold mbind, M_bind, bind, emit. rewrite Hp. reflexivity.
Qed.

(** C7. A tick that finds no slice, or an empty frame id as in a node
    that has handled no batch yet, does nothing: it neither paints nor
    publishes. *)
Theorem tick_without_map_is_silent (node : Node) (w : World G) :
  submap_slices_ node = ∅ \/ last_frame_id_ node = "" ->
  Draw node w = (w, [], Some tt).
Proof.
  intros H. unfold DrawAndPublish.
  destruct H as [H|H]; rewrite H.
  - rewrite map_size_empty. reflexivity.
  - rewrite orb_true_r. reflexivity.
Qed.

(** C8, as amended.  A tick that produces output holds the lock from
    before the compositor is invoked until after the grid has been built
    and published; the lock is held when the painted surface is handed
    over, and is released as the handler returns. *)
Theorem tick_publishes_under_lock (node : Node) (w : World G) :
  submap_slices_ node <> ∅ -> last_frame_id_ node <> "" ->
  exists grid,
    Draw node w
    = (w, [EvLock; EvPaint (submap_slices_ node) (resolution_ node)]
          ++ EvPublish grid :: [EvUnlock], Some tt) /\
    lock_held [EvLock; EvPaint (submap_slices_ node) (resolution_ node)]
    = true /\
    lock_held (events_of (Draw node w)) = false.
Proof.
  intros Hs Hf. destruct (Draw_run node w Hs Hf) as [grid [_ Hrun]].
  exists grid. rewrite Hrun. repeat split.
Qed.

(** C5. The published cells are the rows of the painted surface from the
    last one to the first, each from column 0 to the last column: cell
    [c] of published row [r] is the value of the pixel in column [c] of
    source row [height - 1 - r]. *)
Theorem cells_bottom_row_first (node : Node) (frame_id : string)
    (time : Time) (origin : spec_float * spec_float)
    (surface : CairoSurface) (w : World G) (r c : Z) :
  0 <= r < surface_height surface ->
  0 <= c < surface_width surface ->
  exists grid,
    Publish node frame_id time origin surface w
    = (w, [EvPublish grid], Some tt) /\
    Z.of_nat (length (OccupancyGrid.data grid))
    = surface_width surface * surface_height surface /\
    nth (Z.to_nat (r * surface_width surface + c))
        (OccupancyGrid.data grid) 0
    = cell_value
        (pixel_at (surface_data surface)
           ((surface_height surface - 1 - r) * surface_width surface + c)).
Proof.
  intros Hr Hc.
  destruct (Publish_run node frame_id time origin surface w)
    as [grid [Hg Hp]].
  destruct (occupancy_grid_msg_data (resolution_ node) frame_id time origin
              surface) as [grid' [Hg' Hdata]].
  rewrite Hg in Hg'. inversion Hg'; subst grid'; clear Hg'.
  exists grid. split; [exact Hp|]. rewrite Hdata. split.
  - rewrite length_flipped_rows. nia.
  - replace (Z.to_nat (r * surface_width surface + c))
      with (Z.to_nat r * Z.to_nat (surface_width surface) + Z.to_nat c)%nat
      by nia.
    rewrite nth_flipped_rows by lia. do 2 f_equal. nia.
Qed.

(** C6. The origin of the published grid is at
    [x = -ox * resolution], [y = (-height + oy) * resolution], [z = 0],
    with the identity orientation [w = 1], [x = y = z = 0]; the sum is
    taken in single precision, the products in double precision. *)
Theorem grid_origin (node : Node) (frame_id : string) (time : Time)
    (ox oy : spec_float) (surface : CairoSurface) (w : World G) :
  exists grid,
    Publish node frame_id time (ox, oy) surface w
    = (w, [EvPublish grid], Some tt) /\
    vec_x (OccupancyGrid.origin_position grid)
    = IEEE.dmul (IEEE.double_of_float (IEEE.fneg ox)) (resolution_ node) /\
    vec_y (OccupancyGrid.origin_position grid)
    = IEEE.dmul
        (IEEE.double_of_float
           (IEEE.fadd (IEEE.float_of_int (- surface_height surface)) oy))
        (resolution_ node) /\
    vec_z (OccupancyGrid.origin_position grid) = IEEE.double_of_int 0 /\
    OccupancyGrid.origin_orientation grid
    = {| quat_w := IEEE.double_of_int 1; quat_x := IEEE.double_of_int 0;
         quat_y := IEEE.double_of_int 0; quat_z := IEEE.double_of_int 0 |}.
Proof.
  destruct (Publish_run node frame_id time (ox, oy) surface w)
    as [grid [Hg Hp]].
  exists grid. split; [exact Hp|].
  unfold occupancy_grid_msg in Hg.
  destruct (rows_loop _ _ _ _); [|discriminate].
  inversion Hg; subst grid; clear Hg. repeat split.
Qed.

End TickProperties.

(** ** Further properties of the quantizer *)

Lemma percent_step_all :
  forallb percent_step_ok (map Z.of_nat (seq 0 255)) = true.
Proof. vm_compute. reflexivity. Qed.

Lemma percent_step (c : Z) :
  0 <= c < 255 ->
  occupied_percent (c + 1) <= occupied_percent c <= occupied_percent (c + 1) + 1.
Proof.
  intros Hc.
  assert (Hin : In c (map Z.of_nat (seq 0 255))).
  { apply in_map_iff. exists (Z.to_nat c). split; [lia|]. apply in_seq. lia. }
  pose proof (proj1 (forallb_forall _ _) percent_step_all c Hin) as H.
  unfold percent_step_ok in H. apply andb_prop in H as [H1 H2].
  apply Z.leb_le in H1. apply Z.leb_le in H2. lia.
Qed.

Lemma percent_antitone (n : nat) :
  forall c : Z,
    0 <= c -> c + Z.of_nat n <= 255 ->
    occupied_percent (c + Z.of_nat n) <= occupied_percent c
    <= occupied_percent (c + Z.of_nat n) + Z.of_nat n.
Proof.
  induction n as [|n IH]; intros c Hc Hn.
  - rewrite Z.add_0_r. lia.
  - replace (c + Z.of_nat (S n)) with ((c + 1) + Z.of_nat n) in * by lia.
    pose proof (IH (c + 1) ltac:(lia) ltac:(lia)).
    pose proof (percent_step c ltac:(lia)). lia.
Qed.

(** X1. Of two observed pixels the one with the greater color byte gets
    the smaller or equal cell value, and the two values differ by no more
    than the color bytes do. *)
Theorem brighter_pixel_is_freer (p1 p2 : Z) :
  observed_of p1 <> 0 -> observed_of p2 <> 0 ->
  color_of p1 <= color_of p2 ->
  cell_value p2 <= cell_value p1 <= cell_value p2 + (color_of p2 - color_of p1).
Proof.
  intros H1 H2 Hle. unfold cell_value.
  apply Z.eqb_neq in H1. apply Z.eqb_neq in H2. rewrite H1, H2.
  pose proof (color_of_byte p1) as Hb1. pose proof (color_of_byte p2) as Hb2.
  pose proof (percent_antitone (Z.to_nat (color_of p2 - color_of p1))
                (color_of p1) ltac:(lia) ltac:(lia)) as Hanti.
  replace (color_of p1 + Z.of_nat (Z.to_nat (color_of p2 - color_of p1)))
    with (color_of p2) in Hanti by lia.
  lia.
Qed.

(** X2. A cell is -1 exactly when the observed byte of its pixel is 0: no
    observed pixel is reported as unknown. *)
Theorem unknown_iff_unobserved (packed : Z) :
  cell_value packed = -1 <-> observed_of packed = 0.
Proof.
  unfold cell_value. destruct (Z.eqb_spec (observed_of packed) 0) as [Hz|Hnz].
  - tauto.
  - pose proof (occupied_percent_spec _ (color_of_byte packed)). lia.
Qed.

Lemma flipped_rows_range (pixel_data : list Z) (width : Z) (rows : nat) :
  List.Forall (fun v => -1 <= v <= 100) (flipped_rows pixel_data width rows).
Proof.
  induction rows as [|y IH]; simpl; [constructor|].
  apply List.Forall_app. split; [|exact IH].
  unfold source_row. apply List.Forall_forall. intros v Hv.
  apply in_map_iff in Hv as [x [<- _]]. apply cell_value_range.
Qed.

(** ** Further properties of the batch handler *)

Lemma fetched_ids_app (a b : list Event) :
  fetched_ids (a ++ b) = fetched_ids a ++ fetched_ids b.
Proof.
  induction a as [|e a IH]; simpl; [reflexivity|].
  destruct e; simpl; rewrite IH; reflexivity.
Qed.

Lemma lock_held_fetches (fetches : list Event) :
  List.Forall (fun e => is_fetch_event e = true) fetches ->
  forall held, lock_held_from held fetches = held.
Proof.
  induction 1 as [|e fetches He _ IH]; intros held; [reflexivity|].
  destruct e; try discriminate. simpl. apply IH.
Qed.


Section BatchProperties.
Context {G : Type}.
Variable ToRigid3d : PoseMsg -> Rigid3d.
Variable FetchSubmapTextures : SubmapId -> G -> G * option SubmapTextures.t.
Variable DrawTexture :
  list Z -> list Z -> Z -> Z -> list Z -> list Z * option CairoSurface.
Variable indeterminate : SubmapSlice.t.

Local Abbreviation handle :=
  (handle_submap_msg ToRigid3d FetchSubmapTextures DrawTexture indeterminate).
Local Abbreviation for_each :=
  (for_each_submap ToRigid3d FetchSubmapTextures DrawTexture indeterminate).
Local Abbreviation Handle :=
  (HandleSubmapList ToRigid3d FetchSubmapTextures DrawTexture indeterminate).
Local Abbreviation slot := (slice_at indeterminate).
Local Abbreviation replay_from := (replay FetchSubmapTextures).

Ltac body_cases :=
  unfold handle_submap_msg, fetch, mbind, M_bind, bind, mret, M_ret, ret,
    CHECK, events_of, result_of, world_of;
  rewrite ?texture_is_current_metadata;
  repeat
    match goal with
    | |- context [texture_is_current ?s ?v] =>
        destruct (texture_is_current s v) eqn:?
    | |- context [FetchSubmapTextures ?i ?g] =>
        destruct (FetchSubmapTextures i g) as [? [?|]] eqn:?
    | |- context [SubmapTextures.textures ?f] =>
        destruct (SubmapTextures.textures f) eqn:?
    | |- context [DrawTexture ?a ?b ?c ?d ?e] =>
        destruct (DrawTexture a b c d e) eqn:?
    end;
  cbn [fst snd].


(** One pass aborts exactly when its fetch returned no texture. *)
Lemma handle_abort (e : SubmapEntry.t)
    (st : gmap SubmapId SubmapSlice.t * gset SubmapId) (w : World G) :
  existsb is_empty_response (events_of (handle e st w))
  = match result_of (handle e st w) with
    | Some _ => false
    | None => true
    end.
Proof.
  destruct st as [slices del]. body_cases; simpl;
    repeat match goal with
           | H : SubmapTextures.textures _ = _ |- _ => rewrite H
           end; reflexivity.
Qed.

Lemma handle_only_fetches (e : SubmapEntry.t)
    (st : gmap SubmapId SubmapSlice.t * gset SubmapId) (w : World G) :
  events_of (handle e st w) = [] \/
  exists response,
    events_of (handle e st w) = [EvFetch (id_of e) response].
Proof.
  destruct st as [slices del]. rewrite handle_events.
  destruct (texture_is_current _ _); [left|right; eexists]; reflexivity.
Qed.

Lemma for_each_only_fetches (l : list SubmapEntry.t) :
  forall (st : gmap SubmapId SubmapSlice.t * gset SubmapId) (w : World G),
    List.Forall (fun e => is_fetch_event e = true) (events_of (for_each l st w)).
Proof.
  induction l as [|e l IH]; intros st w; [constructor|].
  rewrite for_each_events_cons. apply List.Forall_app. split.
  - destruct (handle_only_fetches e st w) as [->|[response ->]];
      repeat constructor.
  - destruct (handle e st w) as [[w1 ev1] [st1|]]; [apply IH|constructor].
Qed.

Lemma for_each_fetched_sublist (l : list SubmapEntry.t) :
  forall (st : gmap SubmapId SubmapSlice.t * gset SubmapId) (w : World G),
    fetched_ids (events_of (for_each l st w)) `sublist_of` map id_of l.
Proof.
  induction l as [|e l IH]; intros st w; [constructor|].
  rewrite for_each_events_cons, fetched_ids_app. simpl map.
  assert (Hrest : fetched_ids
                    match handle e st w with
                    | (w1, _, Some st1) => events_of (for_each l st1 w1)
                    | (_, _, None) => []
                    end `sublist_of` map id_of l).
  { destruct (handle e st w) as [[w1 ev1] [st1|]];
      [apply IH | apply sublist_nil_l]. }
  destruct (handle_only_fetches e st w) as [->|[response ->]]; simpl.
  - now apply sublist_cons.
  - now apply sublist_skip.
Qed.

Lemma Handle_events (msg : SubmapList.t) (node : Node) (w : World G) :
  exists fetches,
    List.Forall (fun e => is_fetch_event e = true) fetches /\
    fetched_ids fetches `sublist_of` batch_ids msg /\
    events_of (Handle msg node w)
    = EvLock :: fetches
        ++ match result_of (Handle msg node w) with
           | Some _ => [EvUnlock]
           | None => []
           end.
Proof.
  destruct (Nat.eq_dec (subscribers w) 0%nat) as [Hz|Hsub].
  - exists []. rewrite Handle_gated by exact Hz.
    split; [constructor|]. split; [apply sublist_nil_l | reflexivity].
  - rewrite Handle_run by exact Hsub.
    pose proof (for_each_only_fetches (SubmapList.submap msg)
                  (submap_slices_ node, dom (submap_slices_ node)) w) as Hf.
    pose proof (for_each_fetched_sublist (SubmapList.submap msg)
                  (submap_slices_ node, dom (submap_slices_ node)) w) as Hs.
    destruct (for_each _ _ w) as [[w' events] [[slices del]|]];
      exists events; (split; [exact Hf|]); (split; [exact Hs|]);
      unfold events_of, result_of; simpl; rewrite ?app_nil_r; reflexivity.
Qed.

(** X3. The ids fetched during a call, in the order of the fetches, are a
    subsequence of the ids of the batch in the order of its notifications:
    no id outside the batch is fetched, no more fetches are issued than
    there are notifications, and none out of order.  This holds whether
    the handler returns or aborts. *)
Theorem fetches_follow_batch (msg : SubmapList.t) (node : Node) (w : World G) :
  fetched_ids (events_of (Handle msg node w)) `sublist_of` batch_ids msg.
Proof.
  destruct (Handle_events msg node w) as [fetches [_ [Hs ->]]].
  simpl. rewrite fetched_ids_app.
  destruct (result_of (Handle msg node w)); simpl; rewrite app_nil_r; exact Hs.
Qed.

(** X4. The handler takes the lock first, then does nothing to the outside
    but fetch, and releases the lock as its last act exactly when it
    returns: every fetch is issued with the lock held, nothing is painted
    or published, and an abort leaves the lock held. *)
Theorem handler_fetches_under_lock (msg : SubmapList.t) (node : Node)
    (w : World G) :
  exists fetches,
    List.Forall (fun e => is_fetch_event e = true) fetches /\
    events_of (Handle msg node w)
    = EvLock :: fetches
        ++ match result_of (Handle msg node w) with
           | Some _ => [EvUnlock]
           | None => []
           end /\
    (forall n, lock_held (EvLock :: take n fetches) = true) /\
    lock_held (events_of (Handle msg node w))
    = match result_of (Handle msg node w) with
      | Some _ => false
      | None => true
      end.
Proof.
  destruct (Handle_events msg node w) as [fetches [Hf [_ Hev]]].
  exists fetches. split; [exact Hf|]. split; [exact Hev|]. split.
  - intros n. unfold lock_held. simpl. apply lock_held_fetches.
    now apply Forall_take.
  - rewrite Hev. unfold lock_held. simpl.
    destruct (result_of (Handle msg node w)).
    + clear Hev. induction Hf as [|e fetches He _ IH]; [reflexivity|].
      destruct e; try discriminate. simpl. exact IH.
    + rewrite app_nil_r. now apply lock_held_fetches.
Qed.

Lemma for_each_abort (l : list SubmapEntry.t) :
  forall (st : gmap SubmapId SubmapSlice.t * gset SubmapId) (w : World G),
    existsb is_empty_response (events_of (for_each l st w))
    = match result_of (for_each l st w) with
      | Some _ => false
      | None => true
      end /\
    (result_of (for_each l st w) = None ->
     exists before id response,
       events_of (for_each l st w)
       = before ++ [EvFetch id (Some response)] /\
       SubmapTextures.textures response = []).
Proof.
  induction l as [|e l IH]; intros st w.
  - split; [reflexivity|discriminate].
  - rewrite for_each_events_cons, existsb_app, for_each_cons.
    pose proof (handle_abort e st w) as Ha.
    pose proof (handle_only_fetches e st w) as Hf.
    destruct (handle e st w) as [[w1 ev1] [st1|]] eqn:E;
      unfold events_of, result_of in Ha, Hf; simpl in Ha, Hf.
    + destruct (IH st1 w1) as [IH1 IH2].
      unfold events_of at 1. unfold result_of at 1 2. simpl.
      rewrite Ha. simpl. split; [exact IH1|].
      intros Hnone. destruct (IH2 Hnone) as [before [id [response [-> Ht]]]].
      exists (ev1 ++ before), id, response. split; [|exact Ht].
      unfold events_of. simpl. now rewrite app_assoc.
    + unfold events_of, result_of. simpl. rewrite Ha. simpl.
      split; [reflexivity|]. intros _. rewrite app_nil_r.
      destruct Hf as [->|[response ->]]; [discriminate|].
      simpl in Ha. destruct response as [response|]; [|discriminate].
      exists [], (id_of e), response. split; [reflexivity|].
      destruct (SubmapTextures.textures response); [reflexivity|discriminate].
Qed.

(** X5. The handler aborts exactly when a fetch returns a response without
    textures, and it does so on the spot: that fetch is the last thing it
    did, and the lock is not released. *)
Theorem abort_iff_empty_response (msg : SubmapList.t) (node : Node)
    (w : World G) :
  (result_of (Handle msg node w) = None <->
   existsb is_empty_response (events_of (Handle msg node w)) = true) /\
  (result_of (Handle msg node w) = None ->
   exists before id response,
     events_of (Handle msg node w) = before ++ [EvFetch id (Some response)] /\
     SubmapTextures.textures response = []).
Proof.
  destruct (Nat.eq_dec (subscribers w) 0%nat) as [Hz|Hsub].
  - rewrite Handle_gated by exact Hz. unfold result_of, events_of. simpl.
    split; [split; discriminate | discriminate].
  - rewrite Handle_run by exact Hsub.
    destruct (for_each_abort (SubmapList.submap msg)
                (submap_slices_ node, dom (submap_slices_ node)) w)
      as [Hb Hlast].
    destruct (for_each _ _ w) as [[w' events] [[slices del]|]];
      unfold result_of, events_of in *; simpl in *.
    + rewrite existsb_app, Hb. simpl. split; [split; discriminate|discriminate].
    + rewrite Hb. split; [split; reflexivity|]. intros _.
      destruct (Hlast eq_refl) as [before [id [response [-> Ht]]]].
      exists (EvLock :: before), id, response. split; [reflexivity|exact Ht].
Qed.




(** Where the loop leaves the slice of an id: written with the pose and
    the version of the last notification that names it, or as it was when
    no notification names it. *)
Lemma for_each_last (l : list SubmapEntry.t) :
  forall (slices slices' : gmap SubmapId SubmapSlice.t)
         (del del' : gset SubmapId) (w : World G) (id : SubmapId),
    result_of (for_each l (slices, del) w) = Some (slices', del') ->
    match last_notification id l with
    | Some e =>
        exists s, slices' !! id = Some s /\
          SubmapSlice.pose s = ToRigid3d (SubmapEntry.pose e) /\
          SubmapSlice.metadata_version s = SubmapEntry.submap_version e
    | None => slices' !! id = slices !! id
    end.
Proof.
  induction l as [|e l IH]; intros slices slices' del del' w id Hres.
  - inversion Hres; subst. reflexivity.
  - rewrite for_each_cons in Hres.
    pose proof (handle_result ToRigid3d FetchSubmapTextures DrawTexture
                  indeterminate e slices) as Hs.
    destruct (handle e (slices, del) w) as [[w1 ev1] [[slices1 del1]|]] eqn:E;
      [|discriminate].
    destruct (Hs slices1 del del1 w) as [_ [s [Hins [Hm [Hp _]]]]];
      [now rewrite E|].
    specialize (IH slices1 slices' del1 del' w1 id Hres). simpl.
    destruct (last_notification id l) as [later|]; [exact IH|].
    destruct (decide (id_of e = id)) as [<-|Hne].
    + exists s. rewrite IH, Hins, lookup_insert_eq. auto.
    + rewrite IH, Hins, lookup_insert_ne by exact Hne. reflexivity.
Qed.

Lemma last_notification_in (id : SubmapId) (l : list SubmapEntry.t)
    (e : SubmapEntry.t) :
  last_notification id l = Some e -> id_of e = id /\ e ∈ l.
Proof.
  induction l as [|e0 l IH]; simpl; [discriminate|].
  destruct (last_notification id l) as [later|].
  - intros H. inversion H; subst. destruct (IH eq_refl) as [Hid Hin].
    split; [exact Hid|]. apply elem_of_cons. now right.
  - destruct (decide (id_of e0 = id)) as [Hid|]; [|discriminate].
    intros H. inversion H; subst. split; [reflexivity|].
    apply elem_of_cons. now left.
Qed.

Lemma last_notification_none (id : SubmapId) (l : list SubmapEntry.t) :
  last_notification id l = None <-> id ∉ map id_of l.
Proof.
  induction l as [|e0 l IH]; simpl.
  - split; [intros _; apply not_elem_of_nil | reflexivity].
  - rewrite not_elem_of_cons. destruct (last_notification id l) as [later|].
    + split; [discriminate|]. intros [_ H]. now apply IH in H.
    + destruct (decide (id_of e0 = id)) as [Hid|Hne].
      * split; [discriminate|]. intros [H _]. congruence.
      * split; [|reflexivity]. intros _. split; [congruence|]. now apply IH.
Qed.

(** X7. When the topic has a subscriber and the handler returns, the
    slice of every id of the batch carries the pose and, as its metadata
    version, the version of the last notification of the batch that names
    the id, whether or not a fetch was issued or succeeded. *)
Theorem last_notification_wins (msg : SubmapList.t) (node node' : Node)
    (w : World G) (id : SubmapId) (e : SubmapEntry.t) :
  subscribers w <> 0%nat ->
  result_of (Handle msg node w) = Some node' ->
  last_notification id (SubmapList.submap msg) = Some e ->
  exists s, submap_slices_ node' !! id = Some s /\
    SubmapSlice.pose s = ToRigid3d (SubmapEntry.pose e) /\
    SubmapSlice.metadata_version s = SubmapEntry.submap_version e.
Proof.
  intros Hsub Hres Hlast. rewrite Handle_run in Hres by exact Hsub.
  destruct (for_each _ _ w) as [[w' events] [[slices del]|]] eqn:E;
    [|discriminate].
  inversion Hres; subst; clear Hres. simpl.
  pose proof (for_each_last (SubmapList.submap msg) (submap_slices_ node)
                slices (dom (submap_slices_ node)) del w id) as Hl.
  pose proof (for_each_dom ToRigid3d FetchSubmapTextures DrawTexture
                indeterminate (SubmapList.submap msg) (submap_slices_ node)
                slices (dom (submap_slices_ node)) del w) as Hd.
  rewrite E in Hl, Hd. specialize (Hl eq_refl). destruct (Hd eq_refl) as [_ Hdel].
  rewrite Hlast in Hl. destruct Hl as [s [Hs Hpm]].
  exists s. split; [|exact Hpm].
  rewrite erase_all_lookup, decide_False; [exact Hs|].
  rewrite elem_of_elements, Hdel, elem_of_difference, elem_of_list_to_set.
  intros [_ Hout]. apply Hout. apply last_notification_in in Hlast as [<- Hin].
  now apply elem_of_map_id_of.
Qed.





(** What a call that got past the subscriber test and returned leaves in
    the node. *)
Lemma Handle_returns (msg : SubmapList.t) (node node' : Node) (w : World G) :
  subscribers w <> 0%nat ->
  result_of (Handle msg node w) = Some node' ->
  resolution_ node' = resolution_ node /\
  last_frame_id_ node' = SubmapList.frame_id msg /\
  last_timestamp_ node' = SubmapList.stamp msg /\
  dom (submap_slices_ node') = list_to_set (batch_ids msg) /\
  forall id,
    match last_notification id (SubmapList.submap msg) with
    | Some e =>
        exists s, submap_slices_ node' !! id = Some s /\
          SubmapSlice.pose s = ToRigid3d (SubmapEntry.pose e) /\
          SubmapSlice.metadata_version s = SubmapEntry.submap_version e
    | None => submap_slices_ node' !! id = None
    end.
Proof.
  intros Hsub Hres. rewrite Handle_run in Hres by exact Hsub.
  destruct (for_each _ _ w) as [[w' events] [[slices del]|]] eqn:E;
    [|discriminate].
  inversion Hres; subst; clear Hres. simpl.
  pose proof (for_each_dom ToRigid3d FetchSubmapTextures DrawTexture
                indeterminate (SubmapList.submap msg) (submap_slices_ node)
                slices (dom (submap_slices_ node)) del w) as Hd.
  rewrite E in Hd. destruct (Hd eq_refl) as [Hdom Hdel].
  assert (Hkeys : dom (erase_all (elements del) slices)
                  = list_to_set (batch_ids msg)).
  { rewrite (erase_all_dom FetchSubmapTextures), list_to_set_elements_L,
      Hdom, Hdel.
    unfold batch_ids. apply set_eq. intros id.
    rewrite elem_of_difference, elem_of_union, elem_of_difference.
    destruct (decide (id ∈ (list_to_set (map id_of (SubmapList.submap msg))
                            : gset SubmapId))); tauto. }
  repeat (split; [reflexivity|]). split; [exact Hkeys|].
  intros id.
  pose proof (for_each_last (SubmapList.submap msg) (submap_slices_ node)
                slices (dom (submap_slices_ node)) del w id) as Hl.
  rewrite E in Hl. specialize (Hl eq_refl).
  destruct (last_notification id (SubmapList.submap msg)) as [e|] eqn:Hlast.
  - destruct Hl as [s [Hs Hpm]]. exists s. split; [|exact Hpm].
    rewrite erase_all_lookup, decide_False; [exact Hs|].
    rewrite elem_of_elements, Hdel, elem_of_difference, elem_of_list_to_set.
    intros [_ Hout]. apply Hout. apply last_notification_in in Hlast as [<- Hin].
    now apply elem_of_map_id_of.
  - apply not_elem_of_dom. rewrite Hkeys, elem_of_list_to_set.
    now apply last_notification_none.
Qed.

Lemma set_same_metadata (s : SubmapSlice.t) (p : Rigid3d) (v : Z) :
  SubmapSlice.pose s = p -> SubmapSlice.metadata_version s = v ->
  SliceSet.set_metadata_version v (SliceSet.set_pose p s) = s.
Proof. destruct s. simpl. intros -> ->. reflexivity. Qed.

Local Abbreviation refresh := (refresh_metadata ToRigid3d indeterminate).

Lemma handle_current (e : SubmapEntry.t)
    (slices : gmap SubmapId SubmapSlice.t) (del : gset SubmapId)
    (w : World G) :
  texture_is_current (slot slices (id_of e)) (SubmapEntry.submap_version e)
  = true ->
  handle e (slices, del) w
  = (w, [], Some (refresh slices e, del ∖ {[ id_of e ]})).
Proof.
  intros Hcur. unfold handle_submap_msg.
  rewrite texture_is_current_metadata, Hcur. reflexivity.
Qed.

Lemma refresh_keeps_current (slices : gmap SubmapId SubmapSlice.t)
    (e0 : SubmapEntry.t) (id : SubmapId) (v : Z) :
  texture_is_current (slot (refresh slices e0) id) v
  = texture_is_current (slot slices id) v.
Proof.
  unfold refresh_metadata. rewrite lookup_slot_insert.
  destruct (decide (id_of e0 = id)) as [<-|_]; reflexivity.
Qed.

Lemma for_each_current (l : list SubmapEntry.t) :
  forall (slices : gmap SubmapId SubmapSlice.t) (del : gset SubmapId)
         (w : World G),
    (forall e, e ∈ l ->
       texture_is_current (slot slices (id_of e))
                          (SubmapEntry.submap_version e) = true) ->
    for_each l (slices, del) w
    = (w, [], Some (fold_left refresh l slices,
                    del ∖ list_to_set (map id_of l))).
Proof.
  induction l as [|e l IH]; intros slices del w Hcur.
  - simpl. unfold mret, M_ret, ret. do 3 f_equal. set_solver.
  - rewrite for_each_cons, handle_current
      by (apply Hcur; apply elem_of_cons; now left).
    rewrite IH.
    + unfold world_of, events_of, result_of. simpl. do 3 f_equal. set_solver.
    + intros e' He'. rewrite refresh_keeps_current. apply Hcur.
      apply elem_of_cons. now right.
Qed.

Lemma fold_refresh_lookup (l : list SubmapEntry.t) :
  forall (slices : gmap SubmapId SubmapSlice.t) (id : SubmapId),
    fold_left refresh l slices !! id
    = match last_notification id l with
      | Some e =>
          Some (SliceSet.set_metadata_version (SubmapEntry.submap_version e)
                  (SliceSet.set_pose (ToRigid3d (SubmapEntry.pose e))
                     (slot slices id)))
      | None => slices !! id
      end.
Proof.
  induction l as [|e0 l IH]; intros slices id; [reflexivity|].
  simpl. rewrite IH. destruct (last_notification id l) as [later|].
  - unfold refresh_metadata. rewrite lookup_slot_insert.
    destruct (decide (id_of e0 = id)) as [<-|_]; reflexivity.
  - unfold refresh_metadata. rewrite lookup_insert.
    destruct (decide (id_of e0 = id)) as [<-|_]; reflexivity.
Qed.

(** X9. A batch handled a second time changes nothing when the first
    pass left every slice it names with a surface and with the version the
    notification carries as its texture version: the second call fetches
    nothing, leaves the gateway alone and returns the same node. *)
Theorem repeated_batch_is_noop (msg : SubmapList.t) (node node' : Node)
    (w w2 : World G) :
  subscribers w <> 0%nat -> subscribers w2 <> 0%nat ->
  result_of (Handle msg node w) = Some node' ->
  (forall e, e ∈ SubmapList.submap msg ->
     texture_is_current (slot (submap_slices_ node') (id_of e))
                        (SubmapEntry.submap_version e) = true) ->
  Handle msg node' w2 = (w2, [EvLock; EvUnlock], Some node').
Proof.
  intros Hsub Hsub2 Hres Hcur.
  destruct (Handle_returns msg node node' w Hsub Hres)
    as [_ [Hframe [Hstamp [Hkeys Hlast]]]].
  rewrite Handle_run by exact Hsub2. rewrite for_each_current by exact Hcur.
  simpl. do 2 f_equal.
  assert (Hslices :
            erase_all
              (elements (dom (submap_slices_ node')
                         ∖ list_to_set (map id_of (SubmapList.submap msg))))
              (fold_left refresh (SubmapList.submap msg) (submap_slices_ node'))
            = submap_slices_ node').
  { apply map_eq. intros id. rewrite erase_all_lookup.
    destruct (decide _) as [Hin|_].
    - apply elem_of_elements, elem_of_difference in Hin as [Hin Hout].
      rewrite Hkeys in Hin. contradiction.
    - rewrite fold_refresh_lookup. specialize (Hlast id).
      destruct (last_notification id (SubmapList.submap msg)) as [e|];
        [|reflexivity].
      destruct Hlast as [s [Hs [Hp Hm]]]. unfold slice_at. rewrite Hs.
      now rewrite set_same_metadata. }
  rewrite Hslices. destruct node'. simpl in *. subst. reflexivity.
Qed.

End BatchProperties.

(** ** Further properties of the tick and of the published grid *)

Lemma occupancy_grid_msg_fields (resolution_ : spec_float) (frame_id : string)
    (time : Time) (origin : spec_float * spec_float) (surface : CairoSurface)
    (grid : OccupancyGrid.t) :
  occupancy_grid_msg resolution_ frame_id time origin surface = Some grid ->
  OccupancyGrid.header_frame_id grid = frame_id /\
  OccupancyGrid.header_stamp grid = time /\
  OccupancyGrid.info_map_load_time grid = time /\
  OccupancyGrid.info_resolution grid = IEEE.float_of_double resolution_ /\
  OccupancyGrid.info_width grid = uint32_of_int (surface_width surface) /\
  OccupancyGrid.info_height grid = uint32_of_int (surface_height surface) /\
  OccupancyGrid.data grid
  = flipped_rows (surface_data surface) (surface_width surface)
                 (Z.to_nat (surface_height surface)).
Proof.
  unfold occupancy_grid_msg. rewrite rows_loop_spec.
  intros H. inversion H; subst; clear H. repeat split.
Qed.

Section GridProperties.
Context {G : Type}.
Variable PaintSubmapSlices :
  gmap SubmapId SubmapSlice.t -> spec_float -> PaintSubmapSlicesResult.t.

Local Abbreviation Draw := (@DrawAndPublish G PaintSubmapSlices).
Local Abbreviation Publish := (@PublishOccupancyGrid G).

(** X10. Whatever the pixels of the painted surface are,
    [PublishOccupancyGrid] does not abort and publishes a well-formed
    message: every cell lies between -1 and 100, [info.width] and
    [info.height] are the dimensions of the surface, and the message has
    [info.width * info.height] cells.  The surface has dimensions that are
    not negative and fit an [int], and one pixel for each of its cells. *)
Theorem published_grid_well_formed (node : Node) (frame_id : string)
    (time : Time) (origin : spec_float * spec_float)
    (surface : CairoSurface) (w : World G) :
  0 <= surface_width surface < 2 ^ 31 ->
  0 <= surface_height surface < 2 ^ 31 ->
  Z.of_nat (length (surface_data surface))
  = surface_width surface * surface_height surface ->
  exists grid,
    Publish node frame_id time origin surface w
    = (w, [EvPublish grid], Some tt) /\
    List.Forall (fun v => -1 <= v <= 100) (OccupancyGrid.data grid) /\
    OccupancyGrid.info_width grid = surface_width surface /\
    OccupancyGrid.info_height grid = surface_height surface /\
    Z.of_nat (length (OccupancyGrid.data grid))
    = OccupancyGrid.info_width grid * OccupancyGrid.info_height grid.
Proof.
  intros Hw Hh _.
  destruct (Publish_run node frame_id time origin surface w)
    as [grid [Hg Hp]].
  destruct (occupancy_grid_msg_fields _ _ _ _ _ _ Hg)
    as [_ [_ [_ [_ [Hiw [Hih Hdata]]]]]].
  exists grid. split; [exact Hp|]. rewrite Hdata, Hiw, Hih.
  unfold uint32_of_int. rewrite !Z.mod_small by lia.
  split; [apply flipped_rows_range|]. split; [reflexivity|].
  split; [reflexivity|]. rewrite length_flipped_rows. nia.
Qed.

(** X11. A tick never aborts, never fetches and leaves the gateway alone.
    It publishes at most one grid, and the grid it publishes is stamped
    with the frame id and the timestamp the node holds, not with the time
    of the tick. *)
Theorem tick_is_total (node : Node) (w : World G) :
  exists events,
    Draw node w = (w, events, Some tt) /\
    fetched_ids events = [] /\
    (events = [] \/
     exists grid,
       events = [EvLock; EvPaint (submap_slices_ node) (resolution_ node);
                 EvPublish grid; EvUnlock] /\
       OccupancyGrid.header_frame_id grid = last_frame_id_ node /\
       OccupancyGrid.header_stamp grid = last_timestamp_ node /\
       OccupancyGrid.info_map_load_time grid = last_timestamp_ node).
Proof.
  destruct (decide (size (submap_slices_ node) = 0%nat)) as [Hz|Hnz].
  - exists []. split; [|split; [reflexivity|now left]].
    unfold DrawAndPublish. rewrite Hz. reflexivity.
  - destruct (last_frame_id_ node) as [|a frame] eqn:Hframe.
    + exists []. split; [|split; [reflexivity|now left]].
      unfold DrawAndPublish. rewrite Hframe, orb_true_r. reflexivity.
    + assert (Hs : submap_slices_ node <> ∅).
      { intros Hempty. apply Hnz. rewrite Hempty. apply map_size_empty. }
      assert (Hf : last_frame_id_ node <> "") by (rewrite Hframe; discriminate).
      destruct (Draw_run PaintSubmapSlices node w Hs Hf) as [grid [Hg Hrun]].
      destruct (occupancy_grid_msg_fields _ _ _ _ _ _ Hg)
        as [Hfr [Hst [Hml _]]].
      eexists. split; [exact Hrun|]. split; [reflexivity|]. right.
      exists grid. rewrite <- Hframe. auto.
Qed.

End GridProperties.

Section BatchThenTick.
Context {G : Type}.
Variable ToRigid3d : PoseMsg -> Rigid3d.
Variable FetchSubmapTextures : SubmapId -> G -> G * option SubmapTextures.t.
Variable DrawTexture :
  list Z -> list Z -> Z -> Z -> list Z -> list Z * option CairoSurface.
Variable PaintSubmapSlices :
  gmap SubmapId SubmapSlice.t -> spec_float -> PaintSubmapSlicesResult.t.
Variable indeterminate : SubmapSlice.t.

Local Abbreviation Handle :=
  (HandleSubmapList ToRigid3d FetchSubmapTextures DrawTexture indeterminate).
Local Abbreviation Draw := (@DrawAndPublish G PaintSubmapSlices).

(** X12. After a batch that was handled with a subscriber on the topic,
    the next tick publishes exactly when the batch names a submap and has
    a frame id that is not empty, whether or not any texture could be
    fetched; the grid then carries the frame id and the stamp of the
    batch.  After an empty batch, or one with an empty frame id, the tick
    is silent. *)
Theorem tick_after_batch (msg : SubmapList.t) (node node' : Node)
    (w w' : World G) :
  subscribers w <> 0%nat ->
  result_of (Handle msg node w) = Some node' ->
  (SubmapList.submap msg = [] \/ SubmapList.frame_id msg = "" ->
   Draw node' w' = (w', [], Some tt)) /\
  (SubmapList.submap msg <> [] -> SubmapList.frame_id msg <> "" ->
   exists grid,
     Draw node' w'
     = (w', [EvLock; EvPaint (submap_slices_ node') (resolution_ node);
             EvPublish grid; EvUnlock], Some tt) /\
     OccupancyGrid.header_frame_id grid = SubmapList.frame_id msg /\
     OccupancyGrid.header_stamp grid = SubmapList.stamp msg).
Proof.
  intros Hsub Hres.
  destruct (Handle_returns ToRigid3d FetchSubmapTextures DrawTexture
              indeterminate msg node node' w Hsub Hres)
    as [Hr [Hframe [Hstamp [Hkeys _]]]].
  split.
  - intros Hskip. unfold DrawAndPublish. destruct Hskip as [Hnil|Hempty].
    + assert (Hs : submap_slices_ node' = ∅).
      { apply dom_empty_iff_L. rewrite Hkeys. unfold batch_ids.
        rewrite Hnil. reflexivity. }
      rewrite Hs, map_size_empty. reflexivity.
    + rewrite Hframe, Hempty, orb_true_r. reflexivity.
  - intros Hsome Hnonempty.
    assert (Hs : submap_slices_ node' <> ∅).
    { intros Hempty. apply (f_equal dom) in Hempty.
      rewrite Hkeys, dom_empty_L in Hempty. unfold batch_ids in Hempty.
      destruct (SubmapList.submap msg) as [|e l]; [congruence|].
      simpl in Hempty.
      assert (Hin : id_of e ∈ (∅ : gset SubmapId))
        by (rewrite <- Hempty; set_solver).
      now apply not_elem_of_empty in Hin. }
    assert (Hf : last_frame_id_ node' <> "") by (rewrite Hframe; exact Hnonempty).
    destruct (Draw_run PaintSubmapSlices node' w' Hs Hf) as [grid [Hg Hrun]].
    destruct (occupancy_grid_msg_fields _ _ _ _ _ _ Hg) as [Hfr [Hst _]].
    exists grid. rewrite Hrun, Hfr, Hst, Hr, Hframe, Hstamp. auto.
Qed.

End BatchThenTick.

(** ** The period of the publishing timer *)

Lemma timer_period_all :
  forallb timer_period_ok (map Z.of_nat (seq 0 4001)) = true.
Proof. vm_compute. reflexivity. Qed.

(** X13. A publishing period of [k] milliseconds, given to the flag as
    the decimal [k / 1000] seconds with [k] up to 4000, makes a timer of
    [k] milliseconds or, because the product is truncated, of one
    millisecond less; up to one second the period is exact. *)
Theorem timer_period_truncates (k : Z) :
  0 <= k <= 4000 ->
  (timer_period_ms (period_of_ms k) = k \/
   timer_period_ms (period_of_ms k) = k - 1) /\
  (k <= 1000 -> timer_period_ms (period_of_ms k) = k).
Proof.
  intros Hk.
  assert (Hin : In k (map Z.of_nat (seq 0 4001))).
  { apply in_map_iff. exists (Z.to_nat k). split; [lia|]. apply in_seq. lia. }
  pose proof (proj1 (forallb_forall _ _) timer_period_all k Hin) as H.
  unfold timer_period_ok in H. cbv zeta in H.
  apply andb_prop in H as [H1 H2]. apply orb_prop in H1. apply orb_prop in H2.
  split.
  - destruct H1 as [H1|H1]; apply Z.eqb_eq in H1; auto.
  - intros Hle. destruct H2 as [H2|H2].
    + apply Z.ltb_lt in H2. lia.
    + now apply Z.eqb_eq in H2.
Qed.

(** ** The handlers on examples *)

Import Scenario Runs.

Lemma node1_cached : submap_slices_ node1 <> ∅ /\ last_frame_id_ node1 <> "".
Proof.
  split.
  - intros H. apply (f_equal size) in H. vm_compute in H. discriminate.
  - vm_compute. discriminate.
Qed.

Lemma in_dom_node1 : ((0, 0) : SubmapId) ∈ dom (submap_slices_ node1).
Proof. apply elem_of_dom. vm_compute. eauto. Qed.

(** The first batch on the new node: one fetch, one slice. *)
Example first_batch_run :
  HandleSubmapList (batch [entry 0 0 1]) node0 (world [Some (textures 1)] 1)
  = (world [] 1, [EvLock; EvFetch (0, 0) (Some (textures 1)); EvUnlock],
     Some node1).
Proof. vm_compute. reflexivity. Qed.

(** The same batch again fetches nothing. *)
Example repeated_batch_run :
  events_of (HandleSubmapList (batch [entry 0 0 1]) node1 (world [] 1))
  = [EvLock; EvUnlock].
Proof. vm_compute. reflexivity. Qed.

(** With no subscriber the slice of a submap that the batch no longer
    mentions stays, and the submap the batch mentions gets no slice. *)
Lemma stale_ids_without_subscriber :
  result_of (HandleSubmapList second_batch node1 (world [] 0)) = Some node1 /\
  dom (submap_slices_ node1) <> list_to_set (batch_ids second_batch).
Proof.
  split; [vm_compute; reflexivity|].
  intros H. pose proof in_dom_node1 as Hin. rewrite H in Hin.
  apply elem_of_list_to_set in Hin. vm_compute in Hin.
  apply list_elem_of_singleton in Hin. discriminate.
Qed.

Lemma reconciliation_completeness_witness :
  subscribers (world [] 1) <> 0%nat /\
  result_of (HandleSubmapList second_batch node1 (world [] 1)) = Some node2 /\
  dom (submap_slices_ node2) = list_to_set (batch_ids second_batch).
Proof.
  split; [discriminate|]. split; [vm_compute; reflexivity|].
  apply (reconciliation_completeness ToRigid3d FetchSubmapTextures DrawTexture
           indeterminate second_batch node1 node2 (world [] 1));
    [discriminate | vm_compute; reflexivity].
Defined.

(** A batch that mentions an id twice while the gateway is unavailable
    fetches that id twice. *)
Lemma duplicate_id_fetched_twice :
  ~ (fetch_count (0%Z, 0%Z)
       (events_of (HandleSubmapList twice node0 (world [] 1))) <= 1)%nat.
Proof. vm_compute. intros H. inversion H as [|? H']. inversion H'. Qed.

Lemma NoDup_two_submaps : NoDup (batch_ids two_submaps).
Proof.
  vm_compute. apply NoDup_cons. split.
  - intros H. apply list_elem_of_singleton in H. discriminate.
  - apply NoDup_singleton.
Defined.

Lemma one_fetch_per_id_witness :
  NoDup (batch_ids two_submaps) /\
  (forall id,
     (fetch_count id
        (events_of (HandleSubmapList two_submaps node1
                      (world [Some (textures 1)] 1))) <= 1)%nat) /\
  fetch_count (0, 0)
    (events_of (HandleSubmapList two_submaps node1
                  (world [Some (textures 1)] 1))) = 0%nat /\
  fetch_count (0, 1)
    (events_of (HandleSubmapList two_submaps node1
                  (world [Some (textures 1)] 1))) = 1%nat.
Proof.
  pose proof (one_fetch_per_id ToRigid3d FetchSubmapTextures DrawTexture
                indeterminate two_submaps node1
                (world [Some (textures 1)] 1) NoDup_two_submaps) as [Hle Hex].
  split; [exact NoDup_two_submaps|]. split; [exact Hle|].
  assert (Hsub : subscribers (world [Some (textures 1)] 1) <> 0%nat)
    by discriminate.
  assert (Hres : result_of (HandleSubmapList two_submaps node1
                              (world [Some (textures 1)] 1)) = Some node4)
    by (vm_compute; reflexivity).
  split.
  - apply (Hex Hsub node4 Hres (entry 0 0 1)). apply elem_of_cons. now left.
  - apply (Hex Hsub node4 Hres (entry 0 1 1)). apply elem_of_cons. right.
    apply elem_of_cons. now left.
Defined.

(** The notification of a newer version while the gateway is unavailable
    leaves the raster of version 1 in place. *)
Lemma unfetched_raster_unchanged_witness :
  result_of (HandleSubmapList newer_batch node1 (world [] 1)) = Some node3 /\
  (0, 0) ∈ batch_ids newer_batch /\
  successful_fetch_count (0, 0)
    (events_of (HandleSubmapList newer_batch node1 (world [] 1))) = 0%nat /\
  raster_of (slice_at indeterminate (submap_slices_ node3) (0, 0))
  = raster_of (slice_at indeterminate (submap_slices_ node1) (0, 0)).
Proof.
  assert (Hres : result_of (HandleSubmapList newer_batch node1 (world [] 1))
                 = Some node3) by (vm_compute; reflexivity).
  assert (Hin : ((0, 0) : SubmapId) ∈ batch_ids newer_batch)
    by (vm_compute; apply elem_of_cons; now left).
  assert (Hcount : successful_fetch_count (0, 0)
            (events_of (HandleSubmapList newer_batch node1 (world [] 1)))
          = 0%nat) by (vm_compute; reflexivity).
  split; [exact Hres|]. split; [exact Hin|]. split; [exact Hcount|].
  exact (unfetched_raster_unchanged ToRigid3d FetchSubmapTextures DrawTexture
           indeterminate newer_batch node1 node3 (world [] 1) (0, 0)
           Hres Hin Hcount).
Defined.

(** The slice of submap (0, 0) after that notification: metadata version 2,
    texture version 1. *)
Example texture_version_lags :
  (SubmapSlice.metadata_version <$> submap_slices_ node3 !! (0, 0)) = Some 2 /\
  (SubmapSlice.version <$> submap_slices_ node3 !! (0, 0)) = Some 1.
Proof. vm_compute. split; reflexivity. Qed.

Lemma no_subscriber_no_work_witness :
  subscribers (world [Some (textures 1)] 0) = 0%nat /\
  HandleSubmapList two_submaps node1 (world [Some (textures 1)] 0)
  = (world [Some (textures 1)] 0, [EvLock; EvUnlock], Some node1) /\
  forall id,
    fetch_count id
      (events_of (HandleSubmapList two_submaps node1
                    (world [Some (textures 1)] 0))) = 0%nat.
Proof.
  split; [reflexivity|].
  apply (no_subscriber_no_work ToRigid3d FetchSubmapTextures DrawTexture
           indeterminate two_submaps node1 (world [Some (textures 1)] 0)).
  reflexivity.
Defined.

(** The gateway answers the notification of version 1 with textures of
    version 2: the slice holds texture version 2 under metadata version 1,
    and the same notification fetches again. *)
Lemma fetched_version_from_response_witness :
  texture_is_current (slice_at indeterminate ∅ (id_of (entry 0 0 1)))
                     (SubmapEntry.submap_version (entry 0 0 1)) = false /\
  FetchSubmapTextures (id_of (entry 0 0 1))
                      (gateway (world [Some (textures 2)] 1))
  = ([], Some (textures 2)) /\
  SubmapTextures.textures (textures 2) <> [] /\
  exists s,
    handle_submap_msg ToRigid3d FetchSubmapTextures DrawTexture indeterminate
      (entry 0 0 1) (∅, ∅) (world [Some (textures 2)] 1)
    = (world [] 1, [EvFetch (0, 0) (Some (textures 2))],
       Some (<[ (0, 0) := s ]> ∅, ∅ ∖ {[ (0, 0) ]})) /\
    SubmapSlice.version s = 2 /\
    SubmapSlice.metadata_version s = 1.
Proof.
  assert (Hcur : texture_is_current
                   (slice_at indeterminate ∅ (id_of (entry 0 0 1)))
                   (SubmapEntry.submap_version (entry 0 0 1)) = false)
    by (vm_compute; reflexivity).
  assert (Hfetch : FetchSubmapTextures (id_of (entry 0 0 1))
                     (gateway (world [Some (textures 2)] 1))
                   = ([], Some (textures 2))) by reflexivity.
  assert (Hne : SubmapTextures.textures (textures 2) <> []) by discriminate.
  split; [exact Hcur|]. split; [exact Hfetch|]. split; [exact Hne|].
  destruct (fetched_version_from_response ToRigid3d FetchSubmapTextures
              DrawTexture indeterminate (entry 0 0 1) ∅ ∅
              (world [Some (textures 2)] 1) [] (textures 2)
              Hcur Hfetch Hne) as [s [Hrun [Hv [Hm _]]]].
  exists s. split; [exact Hrun|]. split; [exact Hv|exact Hm].
Defined.

Example refetch_after_version_mismatch :
  match result_of (HandleSubmapList (batch [entry 0 0 1]) node0
                     (world [Some (textures 2)] 1)) with
  | Some node =>
      events_of (HandleSubmapList (batch [entry 0 0 1]) node (world [] 1))
  | None => []
  end
  = [EvLock; EvFetch (0, 0) None; EvUnlock].
Proof. vm_compute. reflexivity. Qed.

Lemma tick_without_map_is_silent_witness :
  (submap_slices_ node0 = ∅ \/ last_frame_id_ node0 = "") /\
  DrawAndPublish node0 (world [] 1) = (world [] 1, [], Some tt).
Proof.
  split; [left; reflexivity|].
  apply (tick_without_map_is_silent PaintSubmapSlices node0 (world [] 1)).
  left. reflexivity.
Defined.

(** The tick on [node1] publishes while the lock is held. *)
Lemma tick_holds_lock_at_publish :
  ~ publishes_unlocked (events_of (DrawAndPublish node1 (world [] 1))).
Proof.
  intros H. destruct node1_cached as [Hs Hf].
  destruct (Draw_run PaintSubmapSlices node1 (world [] 1) Hs Hf)
    as [grid [_ Hrun]].
  unfold DrawAndPublish in H. rewrite Hrun in H.
  specialize (H [EvLock; EvPaint (submap_slices_ node1) (resolution_ node1)]
                grid [EvUnlock] eq_refl).
  discriminate H.
Qed.

Lemma tick_publishes_under_lock_witness :
  submap_slices_ node1 <> ∅ /\ last_frame_id_ node1 <> "" /\
  exists grid,
    DrawAndPublish node1 (world [] 1)
    = (world [] 1,
       [EvLock; EvPaint (submap_slices_ node1) (resolution_ node1)]
       ++ EvPublish grid :: [EvUnlock], Some tt).
Proof.
  assert (Hs : submap_slices_ node1 <> ∅).
  { intros H. apply (f_equal size) in H. vm_compute in H. discriminate. }
  assert (Hf : last_frame_id_ node1 <> "") by (vm_compute; discriminate).
  split; [exact Hs|]. split; [exact Hf|].
  destruct (tick_publishes_under_lock PaintSubmapSlices node1 (world [] 1)
              Hs Hf) as [grid [Hrun _]].
  exists grid. exact Hrun.
Defined.

(** The canvas has an unobserved row 0, a white row 1 and a black row 2:
    the black row comes first. *)
Example canvas_cells : OccupancyGrid.data canvas_grid = [100; 100; 0; 0; -1; -1].
Proof. vm_compute. reflexivity. Qed.

Lemma cells_bottom_row_first_witness :
  0 <= 0 < surface_height canvas /\
  0 <= 1 < surface_width canvas /\
  exists grid,
    PublishOccupancyGrid node1 "map" {| sec := 7; nanosec := 0 |}
      (IEEE.float_of_int 10, IEEE.float_of_int 20) canvas (world [] 1)
    = (world [] 1, [EvPublish grid], Some tt) /\
    Z.of_nat (length (OccupancyGrid.data grid)) = 6 /\
    nth 1 (OccupancyGrid.data grid) 0 = 100.
Proof.
  assert (Hr : 0 <= 0 < surface_height canvas) by (simpl; lia).
  assert (Hc : 0 <= 1 < surface_width canvas) by (simpl; lia).
  split; [exact Hr|]. split; [exact Hc|].
  destruct (cells_bottom_row_first node1 "map" {| sec := 7; nanosec := 0 |}
              (IEEE.float_of_int 10, IEEE.float_of_int 20) canvas
              (world [] 1) 0 1 Hr Hc) as [grid [Hrun [Hlen Hnth]]].
  exists grid. split; [exact Hrun|]. split; [exact Hlen|]. exact Hnth.
Defined.

(** An origin offset of (10, 20) cells on a surface a hundred rows high at
    resolution 0.05 places the grid at (-0.5, -4.0). *)
Example origin_of_tall_surface :
  (OccupancyGrid.origin_position
     <$> occupancy_grid_msg resolution "map" {| sec := 7; nanosec := 0 |}
           (IEEE.float_of_int 10, IEEE.float_of_int 20) tall)
  = Some {| vec_x := IEEE.double_of_decimal (-5) 1;
            vec_y := IEEE.double_of_int (-4);
            vec_z := IEEE.double_of_int 0 |}.
Proof. vm_compute. reflexivity. Qed.

(** The three cases of the quantizer: white, black, unobserved. *)
Example quantizer_cases :
  cell_value (pack 255 255) = 0 /\ cell_value (pack 0 255) = 100 /\
  cell_value (pack 0 0) = -1 /\
  cell_value (Z.lor (Z.shiftl 200 16) 0) = -1.
Proof. vm_compute. repeat split. Qed.

(** ** The further properties on examples *)

Lemma brighter_pixel_is_freer_witness :
  observed_of (pack 0 255) <> 0 /\ observed_of (pack 255 255) <> 0 /\
  color_of (pack 0 255) <= color_of (pack 255 255) /\
  cell_value (pack 255 255) <= cell_value (pack 0 255)
  <= cell_value (pack 255 255)
     + (color_of (pack 255 255) - color_of (pack 0 255)).
Proof.
  assert (H1 : observed_of (pack 0 255) <> 0) by (vm_compute; discriminate).
  assert (H2 : observed_of (pack 255 255) <> 0) by (vm_compute; discriminate).
  assert (H3 : color_of (pack 0 255) <= color_of (pack 255 255))
    by (vm_compute; discriminate).
  split; [exact H1|]. split; [exact H2|]. split; [exact H3|].
  exact (brighter_pixel_is_freer (pack 0 255) (pack 255 255) H1 H2 H3).
Defined.

(** The batch that names submap (0, 0) twice, with a gateway that answers
    the first fetch without textures: the handler aborts on that fetch. *)
Example abort_on_first_empty_response :
  HandleSubmapList twice node0
    (world [Some {| SubmapTextures.version := 1;
                    SubmapTextures.textures := [] |}] 1)
  = (world [] 1,
     [EvLock;
      EvFetch (0, 0) (Some {| SubmapTextures.version := 1;
                              SubmapTextures.textures := [] |})],
     None).
Proof. vm_compute. reflexivity. Qed.

Lemma last_notification_wins_witness :
  subscribers (world [] 1) <> 0%nat /\
  result_of (HandleSubmapList newer_batch node1 (world [] 1)) = Some node3 /\
  last_notification (0, 0) (SubmapList.submap newer_batch)
  = Some (entry 0 0 2) /\
  exists s, submap_slices_ node3 !! (0, 0) = Some s /\
    SubmapSlice.pose s = ToRigid3d (SubmapEntry.pose (entry 0 0 2)) /\
    SubmapSlice.metadata_version s = 2.
Proof.
  assert (Hsub : subscribers (world [] 1) <> 0%nat) by discriminate.
  assert (Hres : result_of (HandleSubmapList newer_batch node1 (world [] 1))
                 = Some node3) by (vm_compute; reflexivity).
  assert (Hlast : last_notification (0, 0) (SubmapList.submap newer_batch)
                  = Some (entry 0 0 2)) by (vm_compute; reflexivity).
  split; [exact Hsub|]. split; [exact Hres|]. split; [exact Hlast|].
  exact (last_notification_wins ToRigid3d FetchSubmapTextures DrawTexture
           indeterminate newer_batch node1 node3 (world [] 1) (0, 0)
           (entry 0 0 2) Hsub Hres Hlast).
Defined.



Lemma repeated_batch_is_noop_witness :
  subscribers (world [Some (textures 1)] 1) <> 0%nat /\
  subscribers (world [] 2) <> 0%nat /\
  result_of (HandleSubmapList (batch [entry 0 0 1]) node0
               (world [Some (textures 1)] 1)) = Some node1 /\
  (forall e, e ∈ SubmapList.submap (batch [entry 0 0 1]) ->
     texture_is_current
       (slice_at indeterminate (submap_slices_ node1) (id_of e))
       (SubmapEntry.submap_version e) = true) /\
  HandleSubmapList (batch [entry 0 0 1]) node1 (world [] 2)
  = (world [] 2, [EvLock; EvUnlock], Some node1).
Proof.
  assert (Hsub : subscribers (world [Some (textures 1)] 1) <> 0%nat)
    by discriminate.
  assert (Hsub2 : subscribers (world [] 2) <> 0%nat) by discriminate.
  assert (Hres : result_of (HandleSubmapList (batch [entry 0 0 1]) node0
                              (world [Some (textures 1)] 1)) = Some node1)
    by (vm_compute; reflexivity).
  assert (Hcur : forall e, e ∈ SubmapList.submap (batch [entry 0 0 1]) ->
            texture_is_current
              (slice_at indeterminate (submap_slices_ node1) (id_of e))
              (SubmapEntry.submap_version e) = true).
  { intros e He. simpl in He. apply list_elem_of_singleton in He. subst e.
    vm_compute. reflexivity. }
  split; [exact Hsub|]. split; [exact Hsub2|]. split; [exact Hres|].
  split; [exact Hcur|].
  exact (repeated_batch_is_noop ToRigid3d FetchSubmapTextures DrawTexture
           indeterminate (batch [entry 0 0 1]) node0 node1
           (world [Some (textures 1)] 1) (world [] 2) Hsub Hsub2 Hres Hcur).
Defined.

Lemma published_grid_well_formed_witness :
  0 <= surface_width canvas < 2 ^ 31 /\
  0 <= surface_height canvas < 2 ^ 31 /\
  Z.of_nat (length (surface_data canvas))
  = surface_width canvas * surface_height canvas /\
  exists grid,
    PublishOccupancyGrid node1 "map" {| sec := 7; nanosec := 0 |}
      (IEEE.float_of_int 10, IEEE.float_of_int 20) canvas (world [] 1)
    = (world [] 1, [EvPublish grid], Some tt) /\
    OccupancyGrid.info_width grid = 2 /\
    OccupancyGrid.info_height grid = 3 /\
    Z.of_nat (length (OccupancyGrid.data grid)) = 6.
Proof.
  assert (Hw : 0 <= surface_width canvas < 2 ^ 31) by (simpl; lia).
  assert (Hh : 0 <= surface_height canvas < 2 ^ 31) by (simpl; lia).
  assert (Hl : Z.of_nat (length (surface_data canvas))
               = surface_width canvas * surface_height canvas)
    by reflexivity.
  split; [exact Hw|]. split; [exact Hh|]. split; [exact Hl|].
  destruct (published_grid_well_formed node1 "map" {| sec := 7; nanosec := 0 |}
              (IEEE.float_of_int 10, IEEE.float_of_int 20) canvas
              (world [] 1) Hw Hh Hl)
    as [grid [Hrun [_ [Hiw [Hih Hlen]]]]].
  exists grid. split; [exact Hrun|]. split; [exact Hiw|]. split; [exact Hih|].
  rewrite Hlen, Hiw, Hih. reflexivity.
Defined.

Lemma tick_after_batch_witness :
  subscribers (world [Some (textures 1)] 1) <> 0%nat /\
  result_of (HandleSubmapList (batch [entry 0 0 1]) node0
               (world [Some (textures 1)] 1)) = Some node1 /\
  exists grid,
    DrawAndPublish node1 (world [] 1)
    = (world [] 1,
       [EvLock; EvPaint (submap_slices_ node1) (resolution_ node0);
        EvPublish grid; EvUnlock], Some tt) /\
    OccupancyGrid.header_frame_id grid = "map" /\
    OccupancyGrid.header_stamp grid = {| sec := 7; nanosec := 0 |}.
Proof.
  assert (Hsub : subscribers (world [Some (textures 1)] 1) <> 0%nat)
    by discriminate.
  assert (Hres : result_of (HandleSubmapList (batch [entry 0 0 1]) node0
                              (world [Some (textures 1)] 1)) = Some node1)
    by (vm_compute; reflexivity).
  split; [exact Hsub|]. split; [exact Hres|].
  destruct (tick_after_batch ToRigid3d FetchSubmapTextures DrawTexture
              PaintSubmapSlices indeterminate (batch [entry 0 0 1]) node0 node1
              (world [Some (textures 1)] 1) (world [] 1) Hsub Hres)
    as [_ Hpublish].
  apply Hpublish; discriminate.
Defined.

(** The default period of one second makes a timer of 1000 milliseconds;
    a period of 1.001 seconds makes the same timer. *)
Example timer_period_of_1001_ms :
  timer_period_ms (period_of_ms 1000) = 1000 /\
  timer_period_ms (period_of_ms 1001) = 1000.
Proof. vm_compute. split; reflexivity. Qed.

Lemma timer_period_truncates_witness :
  0 <= 1000 <= 4000 /\
  (timer_period_ms (period_of_ms 1000) = 1000 \/
   timer_period_ms (period_of_ms 1000) = 1000 - 1) /\
  (1000 <= 1000 -> timer_period_ms (period_of_ms 1000) = 1000).
Proof.
  assert (Hk : 0 <= 1000 <= 4000) by lia.
  split; [exact Hk|]. exact (timer_period_truncates 1000 Hk).
Defined.
